(** * mygene.info query compiler (src/utils/es.py): a shallow embedding

    The module [utils/es.py] turns a user's search request into the JSON
    query document sent to the search engine.  This development embeds
    the species resolver and index router of class [ESQuery] and the
    query builders, filter composer and score augmenter of class
    [ESQueryBuilder], and proves the properties stated about them.

    Conventions.
    - Python [str] is [string]; characters are bytes, and the case and
      white-space tables are Python's for the ASCII range.
    - Python values of dynamic type are the inductive [pyval]; the JSON-like
      dicts and lists the builders assemble are [json], a dict being an
      association list in insertion order.
    - A Python exception is the [Raise] case of [result]. *)

From Stdlib Require Import ZArith QArith String Ascii List Bool Lia.
From stdpp Require Import base decidable option list gmap sets strings pretty.

Local Open Scope Z_scope.
Local Open Scope string_scope.
Local Open Scope list_scope.

(** ** Exceptions and fallible computations *)

Inductive exn : Type :=
  | ValueError
  | TypeError
  | IndexError
  | QueryError.

Inductive result (A : Type) : Type :=
  | Ok (a : A)
  | Raise (e : exn).

Arguments Ok {A} a.
Arguments Raise {A} e.

Definition rbind {A B : Type} (r : result A) (k : A -> result B) : result B :=
  match r with
  | Ok a => k a
  | Raise e => Raise e
  end.

#[global] Instance result_bind : MBind result :=
  fun A B k r => rbind r k.
#[global] Instance result_ret : MRet result := @Ok.

(** ** Python string operations (ASCII range) *)

Module PyStr.

Definition dquote : ascii := ascii_of_nat 34.
Definition backslash : ascii := ascii_of_nat 92.
Definition comma : ascii := ascii_of_nat 44.

Definition code (c : ascii) : nat := nat_of_ascii c.

Definition between (lo hi : nat) (c : ascii) : bool :=
  (lo <=? code c)%nat && (code c <=? hi)%nat.

Definition isdigit (c : ascii) : bool := between 48 57 c.
Definition isupper (c : ascii) : bool := between 65 90 c.
Definition islower (c : ascii) : bool := between 97 122 c.

(** [str.isspace] on ASCII: TAB..CR, FS..US and the blank. *)
Definition isspace (c : ascii) : bool :=
  between 9 13 c || between 28 32 c.

(** The blanks [int()] skips around a numeral: TAB..CR and the blank. *)
Definition isspace_int (c : ascii) : bool :=
  between 9 13 c || (code c =? 32)%nat.

(** JSON's control characters, U+0000..U+001F. *)
Definition iscntrl (c : ascii) : bool := (code c <? 32)%nat.

(** [\w] of the [re] module on ASCII: letters, digits, underscore. *)
Definition isword (c : ascii) : bool :=
  isdigit c || isupper c || islower c || (code c =? 95)%nat.

Fixpoint map (f : ascii -> ascii) (s : string) : string :=
  match s with
  | EmptyString => EmptyString
  | String c s' => String (f c) (map f s')
  end.

Fixpoint filter (p : ascii -> bool) (s : string) : string :=
  match s with
  | EmptyString => EmptyString
  | String c s' => if p c then String c (filter p s') else filter p s'
  end.

Fixpoint existsb (p : ascii -> bool) (s : string) : bool :=
  match s with
  | EmptyString => false
  | String c s' => p c || existsb p s'
  end.

Fixpoint forallb (p : ascii -> bool) (s : string) : bool :=
  match s with
  | EmptyString => true
  | String c s' => p c && forallb p s'
  end.

Definition lower_char (c : ascii) : ascii :=
  if isupper c then ascii_of_nat (code c + 32) else c.

(** [s.lower()] *)
Definition lower (s : string) : string := map lower_char s.

(** [s.replace(c, '')] for a one-character [c] *)
Definition remove (c : ascii) (s : string) : string :=
  filter (fun x => negb (Ascii.eqb x c)) s.

(** [s.startswith(p)] *)
Fixpoint startswith (p s : string) : bool :=
  match p, s with
  | EmptyString, _ => true
  | String a p', String b s' => Ascii.eqb a b && startswith p' s'
  | String _ _, EmptyString => false
  end.

(** [s[n:]] *)
Fixpoint drop (n : nat) (s : string) : string :=
  match n, s with
  | O, _ => s
  | S n', String _ s' => drop n' s'
  | S _, EmptyString => EmptyString
  end.

Fixpoint lstrip_by (p : ascii -> bool) (s : string) : string :=
  match s with
  | String c s' => if p c then lstrip_by p s' else s
  | EmptyString => EmptyString
  end.

Fixpoint rstrip_by (p : ascii -> bool) (s : string) : string :=
  match s with
  | String c s' =>
      match rstrip_by p s' with
      | EmptyString => if p c then EmptyString else String c EmptyString
      | t => String c t
      end
  | EmptyString => EmptyString
  end.

Definition strip_by (p : ascii -> bool) (s : string) : string :=
  rstrip_by p (lstrip_by p s).

(** [s.strip()] *)
Definition strip (s : string) : string := strip_by isspace s.

(** [s.split(c)] for a one-character separator: never the empty list. *)
Fixpoint split (c : ascii) (s : string) : list string :=
  match s with
  | EmptyString => [EmptyString]
  | String x s' =>
      if Ascii.eqb x c then EmptyString :: split c s'
      else match split c s' with
           | w :: ws => String x w :: ws
           | [] => [String x EmptyString]
           end
  end.

(** The longest prefix whose characters satisfy [p], and what follows. *)
Fixpoint span (p : ascii -> bool) (s : string) : string * string :=
  match s with
  | String c s' =>
      if p c then let (a, b) := span p s' in (String c a, b)
      else (EmptyString, s)
  | EmptyString => (EmptyString, EmptyString)
  end.

Definition nonempty (s : string) : bool :=
  match s with EmptyString => false | String _ _ => true end.

Definition digit_val (c : ascii) : Z := Z.of_nat (code c - 48).

(** The digits of a Python decimal numeral: one underscore may sit
    between two digits, nowhere else.  [seen] says that the previous
    character was a digit. *)
Fixpoint digits (acc : Z) (seen : bool) (s : string) : option Z :=
  match s with
  | EmptyString => if seen then Some acc else None
  | String c s' =>
      if isdigit c then digits (10 * acc + digit_val c) true s'
      else if (code c =? 95)%nat
           then (if seen then digits acc false s' else None)
           else None
  end.

(** [int(s)] for a [str]: blanks around, an optional sign, digits. *)
Definition to_int (s : string) : option Z :=
  match strip_by isspace_int s with
  | String "+" t => digits 0 false t
  | String "-" t => Z.opp <$> digits 0 false t
  | t => digits 0 false t
  end.

(** The characters of a numeral: digits and the underscore. *)
Definition numeral_char (c : ascii) : bool := isdigit c || (code c =? 95)%nat.

(** The characters [int()] accepts: blanks, a sign, a numeral. *)
Definition int_char (c : ascii) : bool :=
  isspace_int c || numeral_char c || Ascii.eqb c "+" || Ascii.eqb c "-".

End PyStr.

(** ** Values *)

#[local] Set Warnings "-register-all".

(** The query documents: what [json.dumps] would print.  A dict keeps its
    keys in insertion order.  [JNum] is a decimal literal such as [1.1]. *)
Inductive json : Type :=
  | JNull
  | JBool (b : bool)
  | JInt (z : Z)
  | JNum (q : Q)
  | JStr (s : string)
  | JList (l : list json)
  | JDict (d : list (string * json)).

Abbreviation dict := (list (string * json)).

(** [d[k] = v]: the value is replaced where the key is, else appended. *)
Fixpoint dict_set (k : string) (v : json) (d : dict) : dict :=
  match d with
  | [] => [(k, v)]
  | (k', v') :: d' =>
      if String.eqb k' k then (k', v) :: d' else (k', v') :: dict_set k v d'
  end.

Fixpoint dict_get (k : string) (d : dict) : option json :=
  match d with
  | [] => None
  | (k', v) :: d' => if String.eqb k' k then Some v else dict_get k d'
  end.

(** [d.update(other)] *)
Definition dict_update (d other : dict) : dict :=
  fold_left (fun acc kv => dict_set kv.1 kv.2 acc) other d.

(** An [int] or a [str]: an identifier, or one entry of a species list. *)
Inductive atom : Type :=
  | AInt (z : Z)
  | AStr (s : string).

(** What a caller may pass as a species selector.  [POther] stands for a
    value of any other type (a float, a dict, ...). *)
Inductive pyval : Type :=
  | PNone
  | PInt (z : Z)
  | PStr (s : string)
  | PList (l : list atom)
  | POther.

(** The species of a query builder: the string ['all'] or a list of
    taxonomy ids. *)
Inductive species_t : Type :=
  | SpAll
  | SpIds (ids : list Z).

Definition json_of_atom (a : atom) : json :=
  match a with
  | AInt z => JInt z
  | AStr s => JStr s
  end.

(** [u"{}".format(a)] *)
Definition format_atom (a : atom) : string :=
  match a with
  | AInt z => pretty z
  | AStr s => s
  end.

(** Modelled from the spec: [is_int] is imported from
    [biothings.utils.common] and is not part of the sources; the spec
    calls it "parses fully as an integer" and "integer-shaped".  It is
    taken to be the success of Python's [int()] on the value. *)
Definition is_int (a : atom) : bool :=
  match a with
  | AInt _ => true
  | AStr s => bool_decide (is_Some (PyStr.to_int s))
  end.

(** [int(a)], used only where [is_int a] holds. *)
Definition int_of (a : atom) : Z :=
  match a with
  | AInt z => z
  | AStr s => default 0 (PyStr.to_int s)
  end.

(** ** Module constants *)

Definition TAXONOMY : list (string * Z) :=
  [ ("human", 9606); ("mouse", 10090); ("rat", 10116); ("fruitfly", 7227);
    ("nematode", 6239); ("zebrafish", 7955); ("thale-cress", 3702);
    ("frog", 8364); ("pig", 9823) ].

(** [TAXONOMY[name]], [None] when [name not in TAXONOMY] *)
Fixpoint taxonomy_get (name : string) (tbl : list (string * Z)) : option Z :=
  match tbl with
  | [] => None
  | (k, v) :: tbl' => if String.eqb k name then Some v else taxonomy_get name tbl'
  end.

(** [safe_genome_pos(s)] *)
Definition safe_genome_pos (s : pyval) : result Z :=
  match s with
  | PInt z => Ok z
  | PStr t =>
      match PyStr.to_int (PyStr.remove PyStr.comma t) with
      | Some z => Ok z
      | None => Raise ValueError
      end
  | _ => Raise ValueError
  end.

(** ** Class [ESQuery]: species resolver and index router *)

Record ESQuery : Type := mkESQuery {
  _index : string;
  _default_fields : list string;
  _default_species : list Z;
  _tier_1_species : gset Z
}.

(** [ESQuery.__init__]; [index0] is the index name the base class sets. *)
Definition ESQuery_init (index0 : string) : ESQuery :=
  {| _index := index0;
     _default_fields := ["name"; "symbol"; "taxid"; "entrezgene"];
     _default_species := [9606; 10090; 10116];
     _tier_1_species := list_to_set (TAXONOMY.*2) |}.

(** The values of [TAXONOMY], written out. *)
Definition tier_1_ids : list Z :=
  [9606; 10090; 10116; 7227; 6239; 7955; 3702; 8364; 9823].

(** The loop of [_cleaned_species] over the entries of the sequence. *)
Definition resolve_entry (_species : list atom) (s : atom) : list atom :=
  if is_int s then _species ++ [AInt (int_of s)]
  else match s with
       | AStr name =>
           match taxonomy_get name TAXONOMY with
           | Some taxid => _species ++ [AInt taxid]
           | None => _species
           end
       | AInt _ => _species
       end.

Definition resolve_entries (species : list atom) : list atom :=
  fold_left resolve_entry species [].

(** [ESQuery._cleaned_species(species, default_to_none)] *)
Definition _cleaned_species (self : ESQuery) (species : pyval)
    (default_to_none : bool) : result pyval :=
  match species with
  | PNone =>
      Ok (if default_to_none then PNone
          else PList (AInt <$> _default_species self))
  | PInt z => Ok (PList [AInt z])
  | PStr s =>
      if String.eqb (PyStr.lower s) "all" then Ok (PStr (PyStr.lower s))
      else
        let species :=
          (fun t => AStr (PyStr.lower (PyStr.strip t)))
            <$> PyStr.split PyStr.comma s in
        Ok (PList (resolve_entries species))
  | PList l => Ok (PList (resolve_entries l))
  | POther => Raise ValueError
  end.

Section IndexRouter.

(** The two index names of [config], which is not part of the sources. *)
Variables ES_INDEX_NAME ES_INDEX_NAME_TIER1 : string.

Definition set_index_field (self : ESQuery) (name : string) : ESQuery :=
  {| _index := name;
     _default_fields := _default_fields self;
     _default_species := _default_species self;
     _tier_1_species := _tier_1_species self |}.

(** [ESQuery._set_index(species)] *)
Definition _set_index (self : ESQuery) (species : species_t) : ESQuery :=
  match species with
  | SpAll => set_index_field self ES_INDEX_NAME
  | SpIds ids =>
      if bool_decide (0 < size (list_to_set ids ∖ _tier_1_species self))%nat
      then set_index_field self ES_INDEX_NAME
      else set_index_field self ES_INDEX_NAME_TIER1
  end.

End IndexRouter.

(** ** Class [ESQueryBuilder] *)

(** The attributes [__init__] sets from the query options.  The three
    comma-separated options are [None] or the list [option.split(',')]. *)
Record ESQueryBuilder : Type := mkESQueryBuilder {
  species : species_t;
  species_facet_filter : option species_t;
  entrezonly : bool;
  ensemblonly : bool;
  userfilter : option (list string);
  existsfilter : option (list string);
  missingfilter : option (list string);
  _query_options : dict
}.

Definition set_species (self : ESQueryBuilder) (sp : species_t) : ESQueryBuilder :=
  {| species := sp;
     species_facet_filter := species_facet_filter self;
     entrezonly := entrezonly self;
     ensemblonly := ensemblonly self;
     userfilter := userfilter self;
     existsfilter := existsfilter self;
     missingfilter := missingfilter self;
     _query_options := _query_options self |}.

(** Python's [len], truth value, [x[0]] and JSON image of a species value;
    the string ['all'] has three characters, the first one ['a']. *)
Definition species_len (sp : species_t) : nat :=
  match sp with
  | SpAll => 3
  | SpIds ids => length ids
  end.

Definition species_truthy (sp : species_t) : bool :=
  match sp with
  | SpAll => true
  | SpIds ids => bool_decide (ids ≠ [])
  end.

Definition species_first (sp : species_t) : result json :=
  match sp with
  | SpAll => Ok (JStr "a")
  | SpIds (t :: _) => Ok (JInt t)
  | SpIds [] => Raise IndexError
  end.

Definition json_of_species (sp : species_t) : json :=
  match sp with
  | SpAll => JStr "all"
  | SpIds ids => JList (JInt <$> ids)
  end.

(** [self._nohits_query]: a fake query that returns no hit. *)
Definition _nohits_query : json :=
  JDict [("match", JDict [("non_exist_field", JStr "")])].

(** The interval [_parse_interval_query] returns: the groups of the match
    and the assembly the prefix of the query selects. *)
Record interval : Type := mkInterval {
  chr : string;
  gstart : string;
  gend : string;
  assembly : option string
}.

(** One attempt of the pattern
    [chr(?P<chr>\w+):(?P<gstart>[0-9,]+)-(?P<gend>[0-9,]+)] at the head of
    [s].  Each repetition is followed by a character outside its class (or
    by nothing), so the greedy run is the only candidate. *)
Definition ispos (c : ascii) : bool :=
  PyStr.isdigit c || Ascii.eqb c PyStr.comma.

Definition match_interval_here (s : string) : option (string * string * string) :=
  if PyStr.startswith "chr" s then
    let (w, r1) := PyStr.span PyStr.isword (PyStr.drop 3 s) in
    match w, r1 with
    | String _ _, String ":" r2 =>
        let (a, r3) := PyStr.span ispos r2 in
        match a, r3 with
        | String _ _, String "-" r4 =>
            let (b, _) := PyStr.span ispos r4 in
            match b with
            | String _ _ => Some (w, a, b)
            | EmptyString => None
            end
        | _, _ => None
        end
    | _, _ => None
    end
  else None.

(** [re.search(pattern, s)]: the leftmost position where the pattern matches. *)
Fixpoint search_interval (s : string) : option (string * string * string) :=
  match match_interval_here s with
  | Some m => Some m
  | None =>
      match s with
      | EmptyString => None
      | String _ s' => search_interval s'
      end
  end.

(** [ESQueryBuilder._parse_interval_query(query)] *)
Definition _parse_interval_query (query : string) : option interval :=
  if PyStr.nonempty query then
    match search_interval query with
    | Some (c, s, e) =>
        let d := None in
        let d := if PyStr.startswith "hg19." query then Some "hg19" else d in
        let d := if PyStr.startswith "mm9." query then Some "mm9" else d in
        Some (mkInterval c s e d)
    | None => None
    end
  else None.

(** The dict literal of [dis_max_query], placeholders included. *)
Definition weighted (query : json) (weight : json) : json :=
  JDict [("function_score", JDict [("query", query); ("weight", weight)])].

Definition dis_max_template : json :=
  JDict [("dis_max", JDict [
    ("tie_breaker", JInt 0);
    ("boost", JInt 1);
    ("queries", JList [
      weighted
        (JDict [("match", JDict [("symbol", JDict [
           ("query", JStr "%(q)s"); ("analyzer", JStr "whitespace_lowercase")])])])
        (JInt 5);
      weighted
        (JDict [("match_phrase", JDict [("name", JStr "%(q)s")])])
        (JInt 4);
      weighted
        (JDict [("match", JDict [("name", JDict [
           ("query", JStr "%(q)s"); ("operator", JStr "and");
           ("analyzer", JStr "whitespace_lowercase")])])])
        (JInt 3);
      weighted
        (JDict [("match", JDict [("unigene", JDict [
           ("query", JStr "%(q)s"); ("analyzer", JStr "string_lowercase")])])])
        (JNum (11 # 10));
      weighted
        (JDict [("match", JDict [("go", JDict [
           ("query", JStr "%(q)s"); ("analyzer", JStr "string_lowercase")])])])
        (JNum (11 # 10));
      weighted
        (JDict [("query_string", JDict [
           ("query", JStr "%(q)s"); ("default_operator", JStr "AND");
           ("auto_generate_phrase_queries", JBool true)])])
        (JInt 1) ])])].

(** [text % {'q': q}] seen on the document: each string that is the
    placeholder becomes [q]; no other string of the template has a [%]. *)
Fixpoint format_q (q : string) (j : json) : json :=
  match j with
  | JStr s => if String.eqb s "%(q)s" then JStr q else JStr s
  | JList l => JList (List.map (format_q q) l)
  | JDict d => JDict (List.map (fun kv => (kv.1, format_q q kv.2)) d)
  | _ => j
  end.

(** [json.loads(json.dumps(template) % {'q': q})] for a [q] without double
    quote or backslash, which is what [dis_max_query] passes.  The text is
    then a JSON document with [q] inside string literals: the strict decoder
    rejects it when [q] holds a control character, and otherwise reads each
    placeholder back as [q]. *)
Definition loads_formatted (template : json) (q : string) : result json :=
  if PyStr.existsb PyStr.iscntrl q then Raise ValueError
  else Ok (format_q q template).

(** [_query['dis_max']['queries'] = f(_query['dis_max']['queries'])] *)
Definition update_dis_max_queries (f : list json -> list json) (_query : json)
    : result json :=
  match _query with
  | JDict d =>
      match dict_get "dis_max" d with
      | Some (JDict dm) =>
          match dict_get "queries" dm with
          | Some (JList queries) =>
              Ok (JDict (dict_set "dis_max"
                           (JDict (dict_set "queries" (JList (f queries)) dm)) d))
          | _ => Raise TypeError
          end
      | _ => Raise TypeError
      end
  | _ => Raise TypeError
  end.

(** The first line of [dis_max_query]: every double quote is removed from
    [q], then every backslash. *)
Definition unquote (q : string) : string :=
  PyStr.remove PyStr.backslash (PyStr.remove PyStr.dquote q).

(** [ESQueryBuilder.dis_max_query(q)] *)
Definition dis_max_query (q : string) : result json :=
  let q := unquote q in
  _query ← loads_formatted dis_max_template q;
  if is_int (AStr q) then
    (* _query['dis_max']['queries'] = [] *)
    _query ← update_dis_max_queries (fun _ => []) _query;
    (* _query['dis_max']['queries'].insert(0, {...}) *)
    update_dis_max_queries
      (cons (weighted
               (JDict [("term", JDict [("entrezgene", JInt (int_of (AStr q)))])])
               (JInt 8)))
      _query
  else Ok _query.

(** [ESQueryBuilder.add_species_custom_filters_score(_query)] *)
Definition add_species_custom_filters_score (_query : json) : json :=
  JDict [("function_score", JDict [
    ("query", _query);
    ("functions", JList [
       JDict [("filter", JDict [("term", JDict [("name", JStr "pseudogene")])]);
              ("boost_factor", JStr "0.5")];
       JDict [("filter", JDict [("term", JDict [("taxid", JInt 9606)])]);
              ("boost_factor", JStr "1.55")];
       JDict [("filter", JDict [("term", JDict [("taxid", JInt 10090)])]);
              ("boost_factor", JStr "1.3")];
       JDict [("filter", JDict [("term", JDict [("taxid", JInt 10116)])]);
              ("boost_factor", JStr "1.1")] ]);
    ("score_mode", JStr "first") ])].

(** The closing steps shared by the filter builders: one filter is used
    bare, several go under ["and"]. *)
Definition join_filters (filters : list json) : json :=
  if bool_decide (filters ≠ []) then
    if (length filters =? 1)%nat then default JNull (head filters)
    else JDict [("and", JList filters)]
  else JList filters.

(** [ESQueryBuilder.add_facet_filters(_query)] *)
Definition add_facet_filters (self : ESQueryBuilder) (_query : dict) : result dict :=
  let filters : list json := [] in
  filters ←
    match species_facet_filter self with
    | Some sff =>
        if species_truthy sff then
          if (species_len (species self) =? 1)%nat then
            first ← species_first sff;
            Ok (filters ++ [JDict [("term", JDict [("taxid", first)])]])
          else
            Ok (filters ++ [JDict [("terms", JDict [("taxid", json_of_species sff)])]])
        else Ok filters
    | None => Ok filters
    end;
  if bool_decide (filters ≠ []) then
    Ok (dict_set "filter" (join_filters filters) _query)
  else Ok _query.

Section Builder.

(** What the builder takes from outside the module.
    - [SOURCE_TRANSLATORS] is the table of [config], and [re_sub] the
      function [re.sub(pattern, repl, string)].
    - [generate_query] and [add_query_filters] are methods inherited from
      the [ESQueryBuilder] of [biothings.www.api.es]; they read the
      builder they are called on. *)
Variable SOURCE_TRANSLATORS : list (string * string).
Variable re_sub : string -> string -> string -> string.
Variable generate_query : ESQueryBuilder -> string -> result json.
Variable add_query_filters : ESQueryBuilder -> json -> json.

(** Modelled from the spec: the saved named-filter store, class
    [UserFilters] of module [userfilters], is not part of the sources.
    It answers a filter name with a filter expression or "not found";
    [UserFilters_get name] is that expression, [_uf.get(name)['filter']]
    in the code, and [None] when [_uf.get(name)] is empty. *)
Variable UserFilters_get : string -> option json.

(** [ESQueryBuilder._translate_datasource(q)] *)
Definition _translate_datasource (q : string) : string :=
  fold_left (fun q src => re_sub src.1 src.2 q) SOURCE_TRANSLATORS q.

(** [ESQueryBuilder.get_query_filters()] *)
Definition get_query_filters (self : ESQueryBuilder) : json :=
  let filters : list json := [] in
  let filters :=
    match species self with
    | SpIds ((t :: _) as ids) =>
        if (length ids =? 1)%nat
        then (filters ++ [JDict [("term", JDict [("taxid", JInt t)])]])
        else (filters ++ [JDict [("terms", JDict [("taxid", JList (JInt <$> ids))])]])
    | _ => filters
    end in
  let filters :=
    if entrezonly self
    then (filters ++ [JDict [("exists", JDict [("field", JStr "entrezgene")])]])
    else filters in
  let filters :=
    if ensemblonly self
    then (filters ++ [JDict [("exists", JDict [("field", JStr "ensemblgene")])]])
    else filters in
  let filters :=
    match userfilter self with
    | Some names =>
        fold_left (fun filters _fname =>
                     match UserFilters_get _fname with
                     | Some _filter => (filters ++ [_filter])
                     | None => filters
                     end) names filters
    | None => filters
    end in
  let filters :=
    match existsfilter self with
    | Some fields =>
        fold_left (fun filters _filter =>
                     (filters ++ [JDict [("exists", JDict [("field", JStr _filter)])]]))
                  fields filters
    | None => filters
    end in
  let filters :=
    match missingfilter self with
    | Some fields =>
        fold_left (fun filters _filter =>
                     (filters ++ [JDict [("missing", JDict [("field", JStr _filter)])]]))
                  fields filters
    | None => filters
    end in
  join_filters filters.

(** The last lines of the two identifier and position builders:
    [_q = {'query': _query}], then [_q.update(self._query_options)] when
    there are options. *)
Definition with_options (self : ESQueryBuilder) (_query : json) : dict :=
  let _q := [("query", _query)] in
  if bool_decide (_query_options self ≠ [])
  then dict_update _q (_query_options self)
  else _q.

(** The [scopes] argument of [build_id_query]. *)
Inductive scopes_t : Type :=
  | ScNone
  | ScStr (field : string)
  | ScSeq (fields : list string)
  | ScOther.

Definition str_in (x : string) (l : list string) : bool :=
  List.existsb (String.eqb x) l.

(** [l.remove(x)]: the first occurrence goes. *)
Fixpoint list_remove (x : string) (l : list string) : list string :=
  match l with
  | [] => []
  | y :: l' => if String.eqb y x then l' else y :: list_remove x l'
  end.

Definition match_and (field : string) (id : atom) : json :=
  JDict [("match", JDict [(field, JDict [
    ("query", JStr (format_atom id)); ("operator", JStr "and")])])].

(** [ESQueryBuilder.build_id_query(id, scopes)] *)
Definition build_id_query (self : ESQueryBuilder) (id : atom) (scopes : scopes_t)
    : result dict :=
  let id_is_int := is_int id in
  _query ←
    match scopes with
    | ScNone =>
        if id_is_int then
          Ok (JDict [("multi_match", JDict [
                ("query", json_of_atom id);
                ("fields", JList [JStr "entrezgene"; JStr "retired"])])])
        else Ok (match_and "ensemblgene" id)
    | ScStr _field =>
        if str_in _field ["entrezgene"; "retired"] then
          if id_is_int
          then Ok (JDict [("match", JDict [(_field, json_of_atom id)])])
          else Ok _nohits_query
        else Ok (match_and _field id)
    | ScSeq scopes =>
        let int_fields : list string := [] in
        let str_fields := scopes in
        let '(int_fields, str_fields) :=
          if str_in "entrezgene" str_fields
          then ((int_fields ++ ["entrezgene"]), list_remove "entrezgene" str_fields)
          else (int_fields, str_fields) in
        let '(int_fields, str_fields) :=
          if str_in "retired" str_fields
          then ((int_fields ++ ["retired"]), list_remove "retired" str_fields)
          else (int_fields, str_fields) in
        if id_is_int then
          match int_fields with
          | [f] => Ok (JDict [("match", JDict [(f, json_of_atom id)])])
          | [_; _] =>
              Ok (JDict [("multi_match", JDict [
                    ("query", json_of_atom id);
                    ("fields", JList (JStr <$> int_fields))])])
          | _ => Ok _nohits_query
          end
        else if bool_decide (str_fields ≠ []) then
          Ok (JDict [("multi_match", JDict [
                ("query", JStr (format_atom id));
                ("fields", JList (JStr <$> str_fields));
                ("operator", JStr "and")])])
        else Ok _nohits_query
    | ScOther => Raise ValueError
    end;
  let _query := add_query_filters self _query in
  let _query := add_species_custom_filters_score _query in
  Ok (with_options self _query).

(** The field [build_genomic_pos_query] searches, by assembly. *)
Definition genomic_pos_field (assembly : option string) : string :=
  let genomic_pos_field := "genomic_pos" in
  match assembly with
  | Some ((String _ _) as assembly) =>
      let genomic_pos_field :=
        if String.eqb assembly "hg19" then "genomic_pos_hg19"
        else genomic_pos_field in
      let genomic_pos_field :=
        if String.eqb assembly "mm9" then "genomic_pos_mm9"
        else genomic_pos_field in
      genomic_pos_field
  | _ => genomic_pos_field
  end.

(** [ESQueryBuilder.build_genomic_pos_query(chr, gstart, gend, assembly)] *)
Definition build_genomic_pos_query (self : ESQueryBuilder) (chr : string)
    (gstart gend : pyval) (assembly : option string) : result dict :=
  gstart ← safe_genome_pos gstart;
  gend ← safe_genome_pos gend;
  let chr :=
    if PyStr.startswith "chr" (PyStr.lower chr) then PyStr.drop 3 chr else chr in
  let genomic_pos_field := genomic_pos_field assembly in
  let _query :=
    JDict [("nested", JDict [
      ("path", JStr genomic_pos_field);
      ("query", JDict [("bool", JDict [("must", JList [
         JDict [("term", JDict [((genomic_pos_field ++ ".chr")%string, JStr (PyStr.lower chr))])];
         JDict [("range", JDict [((genomic_pos_field ++ ".start")%string,
                                  JDict [("lte", JInt gend)])])];
         JDict [("range", JDict [((genomic_pos_field ++ ".end")%string,
                                  JDict [("gte", JInt gstart)])])] ])])]) ])] in
  let _query := add_query_filters self _query in
  Ok (with_options self _query).

(** [ESQueryBuilder.query(q)].  The builder comes back with the result,
    since the interval branch assigns [self.species]. *)
Definition query (self : ESQueryBuilder) (q : string)
    : result (ESQueryBuilder * dict) :=
  let q := _translate_datasource q in
  match _parse_interval_query q with
  | Some interval_query =>
      match species self with
      | SpIds ids =>
          match ids with
          | t :: _ =>
              let self := set_species self (SpIds [t]) in
              _q ← build_genomic_pos_query self
                     (chr interval_query)
                     (PStr (gstart interval_query))
                     (PStr (gend interval_query))
                     (assembly interval_query);
              Ok (self, _q)
          | [] => Raise IndexError
          end
      | SpAll => Raise QueryError
      end
  | None =>
      _query ← generate_query self q;
      let _query := add_species_custom_filters_score _query in
      let _q := [("query", _query)] in
      _q ← add_facet_filters self _q;
      let _q :=
        if bool_decide (_query_options self ≠ [])
        then dict_update _q (_query_options self)
        else _q in
      Ok (self, _q)
  end.

End Builder.

(** ** Reading the emitted documents *)

(** The clauses of a dis-max document, and for one clause its kind of
    match, its field and its weight. *)
Definition dis_max_queries (_query : json) : list json :=
  match _query with
  | JDict [(k, JDict dm)] =>
      if String.eqb k "dis_max" then
        match dict_get "queries" dm with
        | Some (JList queries) => queries
        | _ => []
        end
      else []
  | _ => []
  end.

Definition weight_value (w : json) : option Q :=
  match w with
  | JInt z => Some (inject_Z z)
  | JNum q => Some q
  | _ => None
  end.

Definition clause_view (clause : json) : option (string * string * Q) :=
  match clause with
  | JDict [(fs, JDict [(kq, JDict [(kind, body)]); (kw, w)])] =>
      if String.eqb fs "function_score" && String.eqb kq "query"
         && String.eqb kw "weight"
      then
        match weight_value w with
        | Some q =>
            if String.eqb kind "query_string" then Some (kind, "", q)
            else match body with
                 | JDict ((field, _) :: _) => Some (kind, field, q)
                 | _ => None
                 end
        | None => None
        end
      else None
  | _ => None
  end.

(** Every string value inside a document. *)
Fixpoint json_strings (j : json) : list string :=
  match j with
  | JStr s => [s]
  | JList l => flat_map json_strings l
  | JDict d => flat_map (fun kv => json_strings kv.2) d
  | _ => []
  end.

(** Neither a double quote nor a backslash. *)
Definition plain_char (c : ascii) : bool :=
  negb (Ascii.eqb c PyStr.dquote) && negb (Ascii.eqb c PyStr.backslash).

(** A decimal literal such as ["1.55"], the form of the boost factors. *)
Definition decimal_of_string (s : string) : option Q :=
  let (ip, rest) := PyStr.span PyStr.isdigit s in
  match ip, rest with
  | String _ _, EmptyString => (fun z => inject_Z z) <$> PyStr.digits 0 false ip
  | String _ _, String "." fp =>
      if PyStr.nonempty fp then
        (fun z => Qmake z (Pos.pow 10 (Pos.of_nat (String.length fp))))
          <$> PyStr.digits 0 false (ip ++ fp)%string
      else None
  | _, _ => None
  end.

(** One rule of a function-score envelope: the field and value of its
    term filter and its boost factor. *)
Definition rule_view (rule : json) : option (string * json * Q) :=
  match rule with
  | JDict [(kf, JDict [(kt, JDict [(field, value)])]); (kb, JStr factor)] =>
      if String.eqb kf "filter" && String.eqb kt "term"
         && String.eqb kb "boost_factor"
      then (fun q => (field, value, q)) <$> decimal_of_string factor
      else None
  | _ => None
  end.






(** ** The species resolver and the filter composer in the words of the
    specification *)

(** The tokens of a selector: a string is cut at commas, each piece
    trimmed and lower-cased; a sequence is taken as it is. *)
Definition selector_tokens (self : ESQuery) (sel : pyval) : list atom :=
  match sel with
  | PNone => AInt <$> _default_species self
  | PInt z => [AInt z]
  | PStr s => (fun t => AStr (PyStr.lower (PyStr.strip t))) <$> PyStr.split PyStr.comma s
  | PList l => l
  | POther => []
  end.

(** A numeric token is a taxonomy id, a known name is looked up, and any
    other token is dropped. *)
Definition recognise (a : atom) : option Z :=
  if is_int a then Some (int_of a)
  else match a with
       | AStr name => taxonomy_get name TAXONOMY
       | AInt _ => None
       end.

Section ScopeClauses.

Variable UserFilters_get : string -> option json.

(** One clause per enabled condition, in the order of the composer. *)
Definition scope_clauses (self : ESQueryBuilder) : list json :=
  (match species self with
   | SpIds [t] => [JDict [("term", JDict [("taxid", JInt t)])]]
   | SpIds ((_ :: _ :: _) as ids) =>
       [JDict [("terms", JDict [("taxid", JList (JInt <$> ids))])]]
   | _ => []
   end
   ++ (if entrezonly self
       then [JDict [("exists", JDict [("field", JStr "entrezgene")])]] else [])
   ++ (if ensemblonly self
       then [JDict [("exists", JDict [("field", JStr "ensemblgene")])]] else [])
   ++ omap UserFilters_get (default [] (userfilter self))
   ++ ((fun f => JDict [("exists", JDict [("field", JStr f)])])
         <$> default [] (existsfilter self))
   ++ ((fun f => JDict [("missing", JDict [("field", JStr f)])])
         <$> default [] (missingfilter self))).

End ScopeClauses.

(** ** More of the module: options, construction, search *)

(** [k in d], [list(d)] and [del d[k]] for a dict. *)
Definition dict_has (k : string) (d : dict) : bool :=
  List.existsb (fun kv => String.eqb kv.1 k) d.

Definition dict_keys (d : dict) : list string := d.*1.

Definition dict_del (k : string) (d : dict) : dict :=
  List.filter (fun kv => negb (String.eqb kv.1 k)) d.

(** Every key inside a document. *)
Fixpoint json_keys (j : json) : list string :=
  match j with
  | JList l => flat_map json_keys l
  | JDict d => flat_map (fun kv => kv.1 :: json_keys kv.2) d
  | _ => []
  end.

(** [sep.join(l)] *)
Fixpoint join (sep : string) (l : list string) : string :=
  match l with
  | [] => ""
  | [s] => s
  | s :: l' => (s ++ sep ++ join sep l')%string
  end.

(** The characters of a string, one string each: what iterating over a
    [str] yields. *)
Fixpoint chars (s : string) : list string :=
  match s with
  | EmptyString => []
  | String c s' => String c EmptyString :: chars s'
  end.

(** The keyword arguments a builder is made from: the options
    [__init__] pops, each [None] when absent (a flag is [False] then), and
    the other options. *)
Record kwargs : Type := mkKwargs {
  kw_species : option species_t;
  kw_species_facet_filter : option species_t;
  kw_entrezonly : bool;
  kw_ensemblonly : bool;
  kw_userfilter : option string;
  kw_exists : option string;
  kw_missing : option string;
  kw_options : dict
}.

(** [o.split(',') if o else None] *)
Definition split_option (o : option string) : option (list string) :=
  match o with
  | Some ((String _ _) as s) => Some (PyStr.split PyStr.comma s)
  | _ => None
  end.

(** [self._allowed_options] *)
Definition _allowed_options : list string :=
  ["fields"; "_source"; "start"; "from"; "size";
   "sort"; "explain"; "version"; "aggs"; "dotfield"].

Definition is_null (j : json) : bool :=
  match j with JNull => true | _ => false end.

Section BuilderInit.

(** [parse_facets_option] of [biothings.www.api.es], which rewrites the
    options in place. *)
Variable parse_facets_option : dict -> dict.

(** [ESQueryBuilder.__init__], given the keyword arguments *)
Definition ESQueryBuilder_init (kw : kwargs) : ESQueryBuilder :=
  let _query_options := parse_facets_option (kw_options kw) in
  (* for key in set(self._query_options) - set(self._allowed_options): del *)
  let _query_options :=
    List.filter (fun kv => List.existsb (String.eqb kv.1) _allowed_options)
                _query_options in
  (* convert the fields option to _source *)
  let _query_options :=
    match dict_get "fields" _query_options with
    | Some fields =>
        if is_null fields then _query_options
        else dict_del "fields" (dict_set "_source" fields _query_options)
    | None => _query_options
    end in
  {| species := default SpAll (kw_species kw);
     species_facet_filter := kw_species_facet_filter kw;
     entrezonly := kw_entrezonly kw;
     ensemblonly := kw_ensemblonly kw;
     userfilter := split_option (kw_userfilter kw);
     existsfilter := split_option (kw_exists kw);
     missingfilter := split_option (kw_missing kw);
     _query_options := _query_options |}.

Section BuildQuery.

Variable SOURCE_TRANSLATORS : list (string * string).
Variable re_sub : string -> string -> string -> string.
Variable generate_query : ESQueryBuilder -> string -> result json.
Variable add_query_filters : ESQueryBuilder -> json -> json.

(** [ESQuery._build_query(q, kwargs)], with [_get_query_builder] inside. *)
Definition _build_query (q : string) (kw : kwargs) : result (ESQueryBuilder * dict) :=
  let esqb := ESQueryBuilder_init kw in
  query SOURCE_TRANSLATORS re_sub generate_query add_query_filters esqb q.

End BuildQuery.

End BuilderInit.

Section Options.

(** The call [requests.post(url, headers)] to the taxonomy service and the
    reading of its answer, neither of them guarded by the caller:
    [inr e] when [requests.post] or [res.json()] raises [e],
    [inl (Some (res.json()))] when the status is OK, and [inl None] for
    any other status. *)
Variable E : Type.
Variable expand_species : string -> option pyval + E.

(** The address [_get_options] posts to for a resolved species value. *)
Definition species_url (species : pyval) : string :=
  let ids :=
    match species with
    | PStr s => chars s
    | PList l => format_atom <$> l
    | _ => []
    end in
  ("http://s.biothings.io/v1/species?ids=" ++ join "," ids
   ++ "&expand_species=true")%string.

(** [ESQuery._get_options(options, kwargs)], on the three options it reads:
    the [species] and [species_facet_filter] it stores, the [ValueError] of
    the resolver, or the error the service call raised. *)
Definition _get_options (self : ESQuery) (species : pyval)
    (include_tax_tree : bool) (species_facet_filter : pyval)
    : result (pyval * pyval) + E :=
  match _cleaned_species self species false with
  | Raise e => inl (Raise e)
  | Ok species =>
      let facet species :=
        species_facet_filter ← _cleaned_species self species_facet_filter true;
        Ok (species, species_facet_filter) in
      if include_tax_tree then
        match expand_species (species_url species) with
        | inr e => inr e
        | inl (Some expanded) =>
            (* kwargs['species'] = res.json() *)
            inl (facet expanded)
        | inl None => inl (facet species)
        end
      else inl (facet species)
  end.

End Options.

Arguments _get_options {E} expand_species self species include_tax_tree
  species_facet_filter.

Section Search.

Variables ES_INDEX_NAME ES_INDEX_NAME_TIER1 : string.

(** The client call [self._es.search] on an index, a body and options:
    its answer, or the error of type [E] it raises. *)
Variable E : Type.
Variable es_search : string -> dict -> dict -> json + E.

(** [ESQuery._search(q, species, scroll_options)]: the router after the
    call, and what the call gave. *)
Definition _search (self : ESQuery) (q : dict) (species : species_t)
    (scroll_options : dict) : ESQuery * (json + E) :=
  let self := _set_index ES_INDEX_NAME ES_INDEX_NAME_TIER1 self species in
  match es_search (_index self) q scroll_options with
  | inl res =>
      (* self._index = ES_INDEX_NAME *)
      (set_index_field self ES_INDEX_NAME, inl res)
  | inr err => (self, inr err)
  end.

End Search.

(** ** Sample collaborators

    Values for what the module takes from outside, to run the index router
    and the builders on concrete requests: two index names, an empty
    translation table, a filter store with one saved filter, and inherited
    methods that leave the query as it is. *)
Module Sample.

Definition index_all : string := "genedoc_mygene_allspecies".
Definition index_tier1 : string := "genedoc_mygene".

Definition translators : list (string * string) := [].
Definition sub (pattern repl subject : string) : string := subject.
Definition generate (self : ESQueryBuilder) (q : string) : result json :=
  dis_max_query q.
Definition add_filters (self : ESQueryBuilder) (_query : json) : json := _query.
Definition saved (name : string) : option json :=
  if String.eqb name "kinases"
  then Some (JDict [("term", JDict [("go", JStr "kinase")])])
  else None.

Definition builder (sp : species_t) : ESQueryBuilder :=
  mkESQueryBuilder sp None false false None None None [].

Definition faceted (sp sff : species_t) : ESQueryBuilder :=
  mkESQueryBuilder sp (Some sff) false false None None None [].

Definition parse_facets (options : dict) : dict := options.

Definition kw (sp : option species_t) (exists_ : option string) : kwargs :=
  mkKwargs sp None false false None exists_ None [].

End Sample.

(** * Properties *)

(** ** Strings *)

Module PyStrFacts.
Import PyStr.

Lemma forallb_impl (p q : ascii → bool) (s : string) :
  (∀ c, p c = true → q c = true) → forallb p s = true → forallb q s = true.
Proof.
  intros Hpq. induction s as [| c s IH]; [done |]. simpl.
  rewrite !andb_true_iff. intros [Hc Hs]. auto.
Qed.

Lemma filter_forallb (p : ascii → bool) (s : string) :
  forallb p (filter p s) = true.
Proof.
  induction s as [| c s IH]; [done |]. simpl.
  destruct (p c) eqn:Hc; [simpl; by rewrite Hc | done].
Qed.

Lemma filter_keeps (p q : ascii → bool) (s : string) :
  forallb q s = true → forallb q (filter p s) = true.
Proof.
  induction s as [| c s IH]; [done |]. simpl.
  rewrite andb_true_iff. intros [Hc Hs].
  destruct (p c); [simpl; by rewrite Hc, IH | auto].
Qed.

Lemma filter_id (p : ascii → bool) (s : string) :
  forallb p s = true → filter p s = s.
Proof.
  induction s as [| c s IH]; [done |]. simpl.
  rewrite andb_true_iff. intros [Hc Hs]. by rewrite Hc, IH.
Qed.

Lemma forallb_negb_existsb (p : ascii → bool) (s : string) :
  forallb (fun c => negb (p c)) s = true ↔ existsb p s = false.
Proof.
  induction s as [| c s IH]; [done |]. simpl.
  rewrite andb_true_iff, orb_false_iff, negb_true_iff, IH. done.
Qed.

Lemma span_forallb (p : ascii → bool) (s a r : string) :
  span p s = (a, r) → forallb p a = true.
Proof.
  revert a r. induction s as [| c s IH]; intros a r; simpl.
  - by intros [= <- <-].
  - destruct (p c) eqn:Hc.
    + destruct (span p s) as [a' r'] eqn:Hspan. intros [= <- <-].
      simpl. rewrite Hc. by apply (IH a' r').
    + by intros [= <- <-].
Qed.

Lemma lstrip_by_chars (p q : ascii → bool) (s : string) :
  forallb (fun c => p c || q c) (lstrip_by p s) = true →
  forallb (fun c => p c || q c) s = true.
Proof.
  induction s as [| c s IH]; [done |]. simpl.
  destruct (p c) eqn:Hc; simpl.
  - auto.
  - rewrite Hc. simpl. auto.
Qed.

Lemma rstrip_by_chars (p q : ascii → bool) (s : string) :
  forallb q (rstrip_by p s) = true →
  forallb (fun c => p c || q c) s = true.
Proof.
  induction s as [| c s IH]; [done |]. simpl.
  destruct (rstrip_by p s) as [| c' t] eqn:Hr.
  - destruct (p c) eqn:Hc; simpl.
    + intros _. by apply IH.
    + rewrite andb_true_r. intros ->. simpl. by apply IH.
  - cbn [forallb]. intros Hall.
    apply andb_true_iff in Hall as [Hq Ht].
    rewrite Hq, orb_true_r. exact (IH Ht).
Qed.

Lemma strip_by_chars (p q : ascii → bool) (s : string) :
  forallb q (strip_by p s) = true →
  forallb (fun c => p c || q c) s = true.
Proof. intros H. by apply lstrip_by_chars, rstrip_by_chars. Qed.

Lemma rstrip_by_id (p : ascii → bool) (s : string) :
  forallb (fun c => negb (p c)) s = true → rstrip_by p s = s.
Proof.
  induction s as [| c s IH]; [done |]. simpl.
  rewrite andb_true_iff, negb_true_iff. intros [Hc Hs].
  rewrite (IH Hs). destruct s; [by rewrite Hc | done].
Qed.

Lemma strip_by_id (p : ascii → bool) (s : string) :
  forallb (fun c => negb (p c)) s = true → strip_by p s = s.
Proof.
  intros Hs. unfold strip_by.
  assert (lstrip_by p s = s) as ->; [| by apply rstrip_by_id].
  destruct s as [| c s]; [done |]. simpl in *.
  apply andb_true_iff in Hs as [Hc _].
  apply negb_true_iff in Hc. by rewrite Hc.
Qed.

Lemma digits_chars (s : string) (acc : Z) (seen : bool) (z : Z) :
  digits acc seen s = Some z → forallb numeral_char s = true.
Proof.
  revert acc seen. induction s as [| c s IH]; intros acc seen; [done |].
  simpl. unfold numeral_char at 1.
  destruct (isdigit c); simpl.
  - apply IH.
  - destruct (code c =? 95)%nat; [| done].
    destruct seen; [apply IH | done].
Qed.

Lemma digits_total (s : string) (acc : Z) (seen : bool) :
  forallb isdigit s = true → seen = true ∨ s ≠ "" →
  ∃ z, digits acc seen s = Some z.
Proof.
  revert acc seen. induction s as [| c s IH]; intros acc seen Hs Hne.
  - destruct Hne as [-> | Hne]; [by eexists | done].
  - simpl in *. apply andb_true_iff in Hs as [Hc Hs]. rewrite Hc.
    apply IH; [done | by left].
Qed.

Lemma to_int_chars (s : string) (z : Z) :
  to_int s = Some z → forallb int_char s = true.
Proof.
  unfold to_int. intros Hint.
  apply (forallb_impl (fun c => isspace_int c
                                || (numeral_char c || Ascii.eqb c "+" || Ascii.eqb c "-"))).
  { intros c. unfold int_char. by destruct (isspace_int c), (numeral_char c). }
  apply strip_by_chars.
  destruct (strip_by isspace_int s) as [| c t]; [done |].
  assert (forallb numeral_char t = true
          ∧ (numeral_char c || Ascii.eqb c "+" || Ascii.eqb c "-") = true)
    as [Ht Hc].
  { destruct c as [[] [] [] [] [] [] [] []];
      match type of Hint with
      | digits 0 false (String _ _) = _ =>
          simpl in Hint;
          first [ discriminate Hint
                | split; [exact (digits_chars _ _ _ _ Hint) | reflexivity] ]
      | _ <$> digits 0 false _ = _ =>
          destruct (digits 0 false t) eqn:Hd; [| discriminate Hint];
          split; [exact (digits_chars _ _ _ _ Hd) | reflexivity]
      | digits 0 false _ = _ =>
          split; [exact (digits_chars _ _ _ _ Hint) | reflexivity]
      end. }
  simpl. rewrite Hc. simpl.
  revert Ht. apply forallb_impl. intros c' ->. reflexivity.
Qed.

Lemma int_char_plain (c : ascii) :
  int_char c = true →
  negb (Ascii.eqb c dquote) = true ∧ negb (Ascii.eqb c backslash) = true.
Proof. by destruct c as [[] [] [] [] [] [] [] []]. Qed.

Lemma isdigit_not_space (c : ascii) :
  isdigit c = true → negb (isspace_int c) = true.
Proof. by destruct c as [[] [] [] [] [] [] [] []]. Qed.

Lemma to_int_digits (s : string) :
  forallb isdigit s = true → s ≠ "" → ∃ z, to_int s = Some z.
Proof.
  intros Hs Hne. unfold to_int.
  rewrite strip_by_id;
    [| apply (forallb_impl isdigit); [apply isdigit_not_space | exact Hs]].
  destruct (digits_total s 0 false Hs (or_intror Hne)) as [z Hz].
  destruct s as [| c t]; [done |].
  simpl in Hs. apply andb_true_iff in Hs as [Hc _].
  exists z. rewrite <- Hz.
  by destruct c as [[] [] [] [] [] [] [] []].
Qed.

End PyStrFacts.

(** ** Relevance builder *)

Section RelevanceFacts.
Import PyStrFacts.

Lemma unquote_plain (q : string) : PyStr.forallb plain_char (unquote q) = true.
Proof.
  unfold unquote, PyStr.remove.
  apply (forallb_impl (fun c => negb (Ascii.eqb c PyStr.backslash)
                                && negb (Ascii.eqb c PyStr.dquote))).
  { intros c. unfold plain_char. by rewrite andb_comm. }
  induction q as [| c q IH]; [done |]. simpl.
  destruct (Ascii.eqb c PyStr.dquote) eqn:Hd; simpl; [done |].
  destruct (Ascii.eqb c PyStr.backslash) eqn:Hb; simpl; [done |].
  by rewrite Hd, Hb.
Qed.

Lemma unquote_id (q : string) :
  PyStr.forallb plain_char q = true → unquote q = q.
Proof.
  intros Hq. unfold unquote, PyStr.remove.
  rewrite (filter_id _ q).
  - apply filter_id. revert Hq. apply forallb_impl.
    intros c. unfold plain_char. by intros [_ ?]%andb_true_iff.
  - revert Hq. apply forallb_impl.
    intros c. unfold plain_char. by intros [? _]%andb_true_iff.
Qed.

Lemma unquote_idem (q : string) : unquote (unquote q) = unquote q.
Proof. apply unquote_id, unquote_plain. Qed.

Lemma unquote_int (q : string) : is_int (AStr q) = true → unquote q = q.
Proof.
  unfold is_int. intros Hint. apply bool_decide_eq_true in Hint as [z Hz].
  apply unquote_id. apply to_int_chars in Hz. revert Hz.
  apply forallb_impl. intros c Hc. unfold plain_char.
  destruct (int_char_plain c Hc) as [-> ->]. done.
Qed.

Lemma dis_max_query_cases (q : string) :
  dis_max_query q =
    if PyStr.existsb PyStr.iscntrl (unquote q) then Raise ValueError
    else if is_int (AStr (unquote q)) then
      Ok (JDict [("dis_max", JDict [
            ("tie_breaker", JInt 0); ("boost", JInt 1);
            ("queries", JList [
               weighted
                 (JDict [("term", JDict [("entrezgene",
                                          JInt (int_of (AStr (unquote q))))])])
                 (JInt 8)])])])
    else Ok (format_q (unquote q) dis_max_template).
Proof.
  unfold dis_max_query, loads_formatted.
  destruct (PyStr.existsb PyStr.iscntrl (unquote q)); [reflexivity |].
  cbn [mbind result_bind rbind].
  destruct (is_int (AStr (unquote q))); reflexivity.
Qed.

Lemma unquote_chars (q : string) :
  String.list_ascii_of_string (unquote q)
  = filter (λ c, c ≠ "034"%char ∧ c ≠ "092"%char)
           (String.list_ascii_of_string q).
Proof.
  unfold unquote, PyStr.remove.
  induction q as [| c q IH]; [done |].
  cbn [PyStr.filter String.list_ascii_of_string].
  rewrite filter_cons.
  destruct (Ascii.eqb c PyStr.dquote) eqn:Hd; cbn [negb].
  { apply Ascii.eqb_eq in Hd. rewrite decide_False; [exact IH |].
    intros [Hc _]. by apply Hc. }
  cbn [PyStr.filter].
  destruct (Ascii.eqb c PyStr.backslash) eqn:Hb; cbn [negb].
  { apply Ascii.eqb_eq in Hb. rewrite decide_False; [exact IH |].
    intros [_ Hc]. by apply Hc. }
  apply Ascii.eqb_neq in Hd, Hb.
  rewrite decide_True by done.
  cbn [String.list_ascii_of_string]. by rewrite IH.
Qed.

(** C10.  [dis_max_query] first removes every double quote and every
    backslash from the query string, and nothing else: the characters of
    the cleaned string are those of [q], in their order, that are neither a
    double quote (code 34) nor a backslash (code 92).  The builder gives
    the same result on [q] and on [q] without those characters; it returns
    a document whenever what is left has no control character; no string of
    that document holds a double quote or a backslash; and the text inside
    the clauses of the standard list is [q] without those characters. *)
Theorem dis_max_query_unquoted (q : string) :
  String.list_ascii_of_string (unquote q)
  = filter (λ c, c ≠ "034"%char ∧ c ≠ "092"%char)
           (String.list_ascii_of_string q)
  ∧ dis_max_query q = dis_max_query (unquote q)
  ∧ PyStr.forallb plain_char (unquote q) = true
  ∧ (PyStr.existsb PyStr.iscntrl (unquote q) = false →
     ∃ _query, dis_max_query q = Ok _query)
  ∧ (∀ _query, dis_max_query q = Ok _query →
     Forall (fun text => PyStr.forallb plain_char text = true)
            (json_strings _query))
  ∧ (∀ _query, dis_max_query q = Ok _query →
     is_int (AStr (unquote q)) = false →
     json_strings _query =
       [ unquote q; "whitespace_lowercase"; unquote q;
         unquote q; "and"; "whitespace_lowercase";
         unquote q; "string_lowercase"; unquote q; "string_lowercase";
         unquote q; "AND" ]).
Proof.
  split; [apply unquote_chars |].
  split; [by rewrite !dis_max_query_cases, unquote_idem |].
  split; [apply unquote_plain |].
  rewrite dis_max_query_cases.
  split; [| split].
  - intros ->. destruct (is_int _); eauto.
  - intros _query.
    destruct (PyStr.existsb _ _); [done |].
    destruct (is_int _); intros [= <-].
    + constructor.
    + pose proof (unquote_plain q) as Hq.
      cbn. repeat (constructor; [done || exact Hq |]). constructor.
  - intros _query.
    destruct (PyStr.existsb _ _); [done |].
    intros Hq Hint. rewrite Hint in Hq. by injection Hq as <-.
Qed.

(** C8, as amended.  The integer test of [dis_max_query] is made on the
    query string once its double quotes and backslashes are removed.  When
    what is left has no control character, the builder returns a dis-max
    document; if what is left parses as an integer, its clause list is the
    single term clause on [entrezgene] with weight 8, above every weight of
    the standard list, which it replaces; if not, the clause list is the
    standard list: symbol (5), phrase on name (4), name with operator "and"
    (3), unigene (1.1), go (1.1) and the catch-all query string (1).  A raw
    string that parses as an integer is left unchanged by the removal. *)
Theorem dis_max_query_integer_clause (q : string) :
  PyStr.existsb PyStr.iscntrl (unquote q) = false →
  ∃ (_query : json) (standard : list json),
    dis_max_query q = Ok _query
    ∧ _query = JDict [("dis_max", JDict [
                 ("tie_breaker", JInt 0); ("boost", JInt 1);
                 ("queries", JList (dis_max_queries _query))])]
    ∧ standard = dis_max_queries (format_q (unquote q) dis_max_template)
    ∧ clause_view <$> standard =
        [ Some ("match", "symbol", 5%Q); Some ("match_phrase", "name", 4%Q);
          Some ("match", "name", 3%Q); Some ("match", "unigene", (11 # 10)%Q);
          Some ("match", "go", (11 # 10)%Q); Some ("query_string", "", 1%Q) ]
    ∧ (is_int (AStr (unquote q)) = true →
         dis_max_queries _query =
           [ weighted
               (JDict [("term", JDict [("entrezgene",
                                        JInt (int_of (AStr (unquote q))))])])
               (JInt 8) ]
         ∧ clause_view <$> dis_max_queries _query = [Some ("term", "entrezgene", 8%Q)]
         ∧ Forall (fun v => ∃ kind field w,
                     v = Some (kind, field, w) ∧ (w < 8)%Q)
                  (clause_view <$> standard))
    ∧ (is_int (AStr (unquote q)) = false → dis_max_queries _query = standard)
    ∧ (is_int (AStr q) = true → unquote q = q ∧ is_int (AStr (unquote q)) = true).
Proof.
  intros Hctrl. rewrite dis_max_query_cases, Hctrl.
  destruct (is_int (AStr (unquote q))) eqn:Hint.
  - eexists _, _. split; [reflexivity |]. split; [reflexivity |].
    split; [reflexivity |]. split; [reflexivity |].
    split.
    { intros _. split; [reflexivity |]. split; [reflexivity |].
      repeat (constructor; [by eexists _, _, _ |]). constructor. }
    split; [done |].
    intros Hraw. by rewrite (unquote_int q Hraw) in *.
  - eexists _, _. split; [reflexivity |]. split; [reflexivity |].
    split; [reflexivity |]. split; [reflexivity |].
    split; [done |]. split; [done |].
    intros Hraw. rewrite (unquote_int q Hraw) in Hint. congruence.
Qed.

End RelevanceFacts.

(** ** Index router *)

Section IndexRouterFacts.

Variables ES_INDEX_NAME ES_INDEX_NAME_TIER1 : string.

Lemma tier_1_ids_values : TAXONOMY.*2 = tier_1_ids.
Proof. reflexivity. Qed.

Lemma outside_tier_1_iff (tier : gset Z) (ids : list Z) :
  (0 < size (list_to_set ids ∖ tier))%nat ↔ ∃ t, t ∈ ids ∧ t ∉ tier.
Proof.
  split.
  - intros Hpos. destruct (size_pos_elem_of _ Hpos) as [t Ht].
    destruct (proj1 (elem_of_difference _ _ _) Ht) as [Hin Hout].
    exists t. split; [by apply elem_of_list_to_set in Hin | done].
  - intros (t & Hin & Hout).
    assert (t ∈ (list_to_set ids ∖ tier : gset Z)) as Ht.
    { apply elem_of_difference. split; [by apply elem_of_list_to_set | done]. }
    destruct (size (list_to_set ids ∖ tier : gset Z)) eqn:Hsize; [| lia].
    exfalso. apply (not_elem_of_empty (C:=gset Z) t).
    by rewrite <- (size_empty_inv _ Hsize).
Qed.

Lemma set_index_ids (self : ESQuery) (ids : list Z) :
  _index (_set_index ES_INDEX_NAME ES_INDEX_NAME_TIER1 self (SpIds ids)) =
    if bool_decide (0 < size (list_to_set ids ∖ _tier_1_species self))%nat
    then ES_INDEX_NAME else ES_INDEX_NAME_TIER1.
Proof. simpl. by destruct (bool_decide _). Qed.

(** C4.  The index router selects the full index exactly when the
    species is ['all'] or some taxonomy id lies outside the tier-1 set,
    and the tier-1 index exactly when the species is a list of ids that
    are all in tier-1; the selected index depends on the species alone,
    not on the router's previous index. *)
Theorem set_index_routes (self : ESQuery) (sp : species_t) :
  _tier_1_species self = list_to_set tier_1_ids →
  ES_INDEX_NAME ≠ ES_INDEX_NAME_TIER1 →
  let routed := _index (_set_index ES_INDEX_NAME ES_INDEX_NAME_TIER1 self sp) in
  (routed = ES_INDEX_NAME ↔
     sp = SpAll ∨ ∃ ids t, sp = SpIds ids ∧ t ∈ ids ∧ t ∉ tier_1_ids)
  ∧ (routed = ES_INDEX_NAME_TIER1 ↔
       ∃ ids, sp = SpIds ids ∧ ∀ t, t ∈ ids → t ∈ tier_1_ids)
  ∧ (∀ self' : ESQuery,
       _tier_1_species self' = list_to_set tier_1_ids →
       _index (_set_index ES_INDEX_NAME ES_INDEX_NAME_TIER1 self' sp) = routed).
Proof.
  intros Htier Hne routed. subst routed.
  destruct sp as [| ids].
  - simpl. split; [| split].
    + split; [by left | done].
    + split; [done | by intros (ids & [=] & _)].
    + done.
  - rewrite set_index_ids.
    pose proof (outside_tier_1_iff (_tier_1_species self) ids) as Hout.
    rewrite Htier in Hout |- *.
    split; [| split].
    + case_bool_decide as Hsize.
      * split; [| done]. intros _. right.
        apply Hout in Hsize as (t & Hin & Hnot).
        exists ids, t. by rewrite elem_of_list_to_set in Hnot.
      * split; [done |]. intros [[=] | (ids' & t & [= <-] & Hin & Hnot)].
        exfalso. apply Hsize, Hout. exists t.
        by rewrite elem_of_list_to_set.
    + case_bool_decide as Hsize.
      * split; [done |]. intros (ids' & [= <-] & Hall). exfalso.
        apply Hout in Hsize as (t & Hin & Hnot).
        apply Hnot, elem_of_list_to_set, Hall, Hin.
      * split; [| done]. intros _. exists ids. split; [done |].
        intros t Hin. destruct (decide (t ∈ tier_1_ids)) as [| Hnot]; [done |].
        exfalso. apply Hsize, Hout. exists t.
        by rewrite elem_of_list_to_set.
    + intros self' Htier'. by rewrite set_index_ids, Htier'.
Qed.

End IndexRouterFacts.

(** ** Species resolver *)

Section SpeciesResolverFacts.

Lemma resolve_entry_recognise (acc : list atom) (a : atom) :
  resolve_entry acc a = acc ++ (AInt <$> option_list (recognise a)).
Proof.
  unfold resolve_entry, recognise.
  destruct (is_int a); [reflexivity |].
  destruct a as [z | name]; [symmetry; apply app_nil_r |].
  destruct (taxonomy_get name TAXONOMY); [reflexivity | symmetry; apply app_nil_r].
Qed.

Lemma resolve_entries_from (l acc : list atom) :
  fold_left resolve_entry l acc = acc ++ (AInt <$> omap recognise l).
Proof.
  revert acc. induction l as [| a l IH]; intros acc; simpl.
  - by rewrite app_nil_r.
  - rewrite IH, resolve_entry_recognise, <- app_assoc. f_equal.
    destruct (recognise a); reflexivity.
Qed.

Lemma resolve_entries_omap (l : list atom) :
  resolve_entries l = AInt <$> omap recognise l.
Proof. unfold resolve_entries. by rewrite resolve_entries_from. Qed.

Lemma recognise_ints (ts : list Z) : omap recognise (AInt <$> ts) = ts.
Proof. induction ts as [| t ts IH]; [done |]. cbn. by f_equal. Qed.

(** C2, as amended.  Every selector of an accepted kind (absent, integer,
    string, sequence of strings and integers) resolves without error to
    the ['all'] sentinel, to [None] (an absent selector under
    [default_to_none] only), or to a list of integer taxonomy ids: one id
    for each token that is integer-shaped or a known name, in order, and
    nothing for the other tokens.  The list never holds a name; it is
    empty when no token is recognised. *)
Theorem cleaned_species_resolved (self : ESQuery) (sel : pyval) (dtn : bool) :
  sel ≠ POther →
  ∃ r, _cleaned_species self sel dtn = Ok r
       ∧ ((r = PStr "all" ∧ ∃ s, sel = PStr s ∧ PyStr.lower s = "all")
          ∨ (r = PNone ∧ sel = PNone ∧ dtn = true)
          ∨ (∃ ids : list Z,
               r = PList (AInt <$> ids)
               ∧ ids = omap recognise (selector_tokens self sel))).
Proof.
  intros Hsel. destruct sel as [| z | s | l |]; simpl; [| | | | done].
  - destruct dtn.
    + eexists. split; [reflexivity |]. right; left. done.
    + eexists. split; [reflexivity |]. right; right.
      exists (_default_species self). by rewrite recognise_ints.
  - eexists. split; [reflexivity |]. right; right. by exists [z].
  - destruct (String.eqb (PyStr.lower s) "all") eqn:Hall.
    + apply String.eqb_eq in Hall.
      eexists. split; [reflexivity |]. left. rewrite Hall. eauto.
    + eexists. split; [reflexivity |]. right; right.
      eexists. split; [by rewrite resolve_entries_omap | done].
  - eexists. split; [reflexivity |]. right; right.
    eexists. split; [by rewrite resolve_entries_omap | done].
Qed.

End SpeciesResolverFacts.

(** ** Score augmenter *)

(** C7.  The score augmenter wraps any query in a function-score envelope
    whose score mode is ["first"] and whose rule list does not depend on
    the query: a term filter on the name ["pseudogene"] with a factor below
    1, then term filters on the taxonomy ids 9606, 10090 and 10116 with
    factors in decreasing order, each above 1. *)
Theorem score_envelope_rules :
  ∃ (functions : list json) (pseudo human mouse rat : Q),
    (∀ _query : json,
       add_species_custom_filters_score _query =
         JDict [("function_score", JDict [
           ("query", _query);
           ("functions", JList functions);
           ("score_mode", JStr "first")])])
    ∧ rule_view <$> functions =
        [ Some ("name", JStr "pseudogene", pseudo);
          Some ("taxid", JInt 9606, human);
          Some ("taxid", JInt 10090, mouse);
          Some ("taxid", JInt 10116, rat) ]
    ∧ (pseudo < 1)%Q ∧ (mouse < human)%Q ∧ (rat < mouse)%Q ∧ (1 < rat)%Q.
Proof.
  eexists _, _, _, _, _. split; [intros _query; reflexivity |].
  split; [vm_compute; reflexivity |].
  repeat split.
Qed.

(** ** Interval pattern *)

Section IntervalFacts.
Import PyStrFacts.

Lemma match_interval_here_groups (s w a b : string) :
  match_interval_here s = Some (w, a, b) →
  PyStr.forallb ispos a = true ∧ PyStr.forallb ispos b = true.
Proof.
  unfold match_interval_here.
  destruct (PyStr.startswith "chr" s); [| done].
  destruct (PyStr.span PyStr.isword (PyStr.drop 3 s)) as [w' r1].
  destruct w' as [| cw w']; [done |].
  destruct r1 as [| c1 r2]; [done |].
  destruct (Ascii.eqb c1 ":") eqn:Hc1;
    [apply Ascii.eqb_eq in Hc1 as -> |].
  2: { destruct c1 as [[] [] [] [] [] [] [] []]; done. }
  destruct (PyStr.span ispos r2) as [a' r3] eqn:Ha.
  destruct a' as [| ca a']; [done |].
  destruct r3 as [| c3 r4]; [done |].
  destruct (Ascii.eqb c3 "-") eqn:Hc3;
    [apply Ascii.eqb_eq in Hc3 as -> |].
  2: { destruct c3 as [[] [] [] [] [] [] [] []]; done. }
  destruct (PyStr.span ispos r4) as [b' r5] eqn:Hb.
  destruct b' as [| cb b']; [done |].
  intros [= <- <- <-].
  split; [exact (span_forallb _ _ _ _ Ha) | exact (span_forallb _ _ _ _ Hb)].
Qed.

Lemma search_interval_groups (s w a b : string) :
  search_interval s = Some (w, a, b) →
  PyStr.forallb ispos a = true ∧ PyStr.forallb ispos b = true.
Proof.
  induction s as [| c s IH].
  - done.
  - cbn [search_interval].
    destruct (match_interval_here (String c s)) as [[[w' a'] b'] |] eqn:Hm.
    + intros [= -> -> ->]. exact (match_interval_here_groups _ _ _ _ Hm).
    + exact IH.
Qed.

Lemma parse_interval_groups (q : string) (d : interval) :
  _parse_interval_query q = Some d →
  PyStr.forallb ispos (gstart d) = true ∧ PyStr.forallb ispos (gend d) = true.
Proof.
  unfold _parse_interval_query.
  destruct (PyStr.nonempty q); [| done].
  destruct (search_interval q) as [[[w a] b] |] eqn:Hs; [| done].
  intros [= <-]. exact (search_interval_groups _ _ _ _ Hs).
Qed.

Lemma position_normalises (t : string) :
  PyStr.forallb ispos t = true → PyStr.existsb PyStr.isdigit t = true →
  ∃ z, safe_genome_pos (PStr t) = Ok z.
Proof.
  intros Hpos Hdigit.
  destruct (to_int_digits (PyStr.remove PyStr.comma t)) as [z Hz].
  - unfold PyStr.remove.
    induction t as [| c t IH]; [done |]. simpl in *.
    apply andb_true_iff in Hpos as [Hc Ht].
    destruct (Ascii.eqb c PyStr.comma) eqn:Hcomma; simpl.
    + apply IH; [done |].
      apply Ascii.eqb_eq in Hcomma as ->. exact Hdigit.
    + unfold ispos in Hc. rewrite Hcomma, orb_false_r in Hc. rewrite Hc. simpl.
      clear IH Hdigit. induction t as [| c' t IH]; [done |]. simpl in *.
      apply andb_true_iff in Ht as [Hc' Ht].
      destruct (Ascii.eqb c' PyStr.comma) eqn:Hcomma'; simpl; [by apply IH |].
      unfold ispos in Hc'. rewrite Hcomma', orb_false_r in Hc'. rewrite Hc'.
      by apply IH.
  - unfold PyStr.remove.
    induction t as [| c t IH]; [done |]. simpl in *.
    apply andb_true_iff in Hpos as [Hc Ht].
    destruct (Ascii.eqb c PyStr.comma) eqn:Hcomma; simpl; [| done].
    apply IH; [done |].
    apply Ascii.eqb_eq in Hcomma as ->. exact Hdigit.
  - exists z. simpl. by rewrite Hz.
Qed.

End IntervalFacts.

(** ** Query builders *)

Section BuilderFacts.

Variable SOURCE_TRANSLATORS : list (string * string).
Variable re_sub : string -> string -> string -> string.
Variable generate_query : ESQueryBuilder -> string -> result json.
Variable add_query_filters : ESQueryBuilder -> json -> json.
Variable UserFilters_get : string -> option json.

(** *** Scoped-identifier builder *)

(** C3.  With the single scope ['entrezgene'] or ['retired'] and an id
    that is not integer-shaped, [build_id_query] raises nothing: the
    query it builds is the zero-hit query, a match on a field that does
    not exist, which then gets the filters, the score envelope and the
    options as every identifier query does.  The id ['not-a-number'] is
    such an id. *)
Theorem build_id_query_nohits (self : ESQueryBuilder) (id : atom) (field : string) :
  field = "entrezgene" ∨ field = "retired" →
  is_int id = false →
  build_id_query add_query_filters self id (ScStr field) =
    Ok (with_options self
          (add_species_custom_filters_score
             (add_query_filters self _nohits_query)))
  ∧ _nohits_query = JDict [("match", JDict [("non_exist_field", JStr "")])]
  ∧ is_int (AStr "not-a-number") = false.
Proof.
  intros Hfield Hid. split; [| split; reflexivity].
  unfold build_id_query. rewrite Hid.
  by destruct Hfield as [-> | ->].
Qed.

(** *** Post-filter on the species facet *)

Lemma add_facet_filters_ids (self : ESQueryBuilder) (_query : dict)
    (t : Z) (ts : list Z) :
  species_facet_filter self = Some (SpIds (t :: ts)) →
  add_facet_filters self _query =
    Ok (dict_set "filter"
          (if (species_len (species self) =? 1)%nat
           then JDict [("term", JDict [("taxid", JInt t)])]
           else JDict [("terms", JDict [("taxid", JList (JInt <$> t :: ts))])])
          _query).
Proof.
  intros Hsff. unfold add_facet_filters. rewrite Hsff. simpl.
  by destruct (species_len (species self) =? 1)%nat.
Qed.

(** C9.  With a species facet filter of one or more ids, the post-filter
    is a [term] clause on the first facet id when the species value has
    length one, and a [terms] clause on the whole facet list otherwise,
    whatever the length of the facet list.  So species ['all'] with a
    one-id facet filter gives a [terms] clause holding that id, and a
    one-id species with a facet filter of several ids gives a [term]
    clause holding the first facet id only. *)
Theorem add_facet_filters_by_species_length (self : ESQueryBuilder)
    (_query : dict) (t : Z) (ts : list Z) :
  species_facet_filter self = Some (SpIds (t :: ts)) →
  (species_len (species self) = 1%nat →
     add_facet_filters self _query =
       Ok (dict_set "filter" (JDict [("term", JDict [("taxid", JInt t)])]) _query))
  ∧ (species_len (species self) ≠ 1%nat →
       add_facet_filters self _query =
         Ok (dict_set "filter"
               (JDict [("terms", JDict [("taxid", JList (JInt <$> t :: ts))])])
               _query))
  ∧ (species self = SpAll → ts = [] →
       add_facet_filters self _query =
         Ok (dict_set "filter"
               (JDict [("terms", JDict [("taxid", JList [JInt t])])]) _query))
  ∧ (∀ s, species self = SpIds [s] →
       add_facet_filters self _query =
         Ok (dict_set "filter" (JDict [("term", JDict [("taxid", JInt t)])]) _query)).
Proof.
  intros Hsff. rewrite (add_facet_filters_ids _ _ _ _ Hsff).
  repeat split.
  - intros ->. reflexivity.
  - intros Hlen. apply Nat.eqb_neq in Hlen. by rewrite Hlen.
  - intros -> ->. reflexivity.
  - intros s ->. reflexivity.
Qed.

(** *** Scope filters *)

Lemma fold_left_snoc_map {A B : Type} (g : A → B) (l : list A) (acc : list B) :
  fold_left (fun fs x => fs ++ [g x]) l acc = acc ++ (g <$> l).
Proof.
  revert acc. induction l as [| x l IH]; intros acc; simpl.
  - by rewrite app_nil_r.
  - by rewrite IH, <- app_assoc.
Qed.

Lemma fold_left_snoc_omap {A B : Type} (g : A → option B) (l : list A)
    (acc : list B) :
  fold_left (fun fs x => match g x with Some y => fs ++ [y] | None => fs end) l acc
  = acc ++ omap g l.
Proof.
  revert acc. induction l as [| x l IH]; intros acc; simpl.
  - by rewrite app_nil_r.
  - rewrite IH. destruct (g x); [by rewrite <- app_assoc | done].
Qed.

Lemma join_filters_cases (filters : list json) :
  join_filters filters =
    match filters with
    | [] => JList []
    | [c] => c
    | _ :: _ :: _ => JDict [("and", JList filters)]
    end.
Proof. by destruct filters as [| c [| c' cs]]. Qed.

Lemma get_query_filters_clauses (self : ESQueryBuilder) :
  get_query_filters UserFilters_get self
  = join_filters (scope_clauses UserFilters_get self).
Proof.
  unfold get_query_filters, scope_clauses. f_equal.
  destruct (missingfilter self) as [missing |],
           (existsfilter self) as [exists_ |],
           (userfilter self) as [names |];
    cbn [default];
    rewrite ?fold_left_snoc_map, ?fold_left_snoc_omap;
    cbn [omap fmap list_fmap list_omap];
    rewrite ?app_nil_r, <- ?app_assoc;
    (destruct (species self) as [| [| t [| t' ts]]];
     destruct (entrezonly self), (ensemblonly self); reflexivity).
Qed.

(** C6.  The scope-filter composer collects one clause per enabled
    condition (species, entrez-only, ensembl-only, each saved filter that
    is found, each field of [exists], each field of [missing]); with no
    clause it yields the empty list, which stands for no filter; with
    exactly one clause it yields that clause itself; with two or more it
    yields all of them under a single ["and"] key. *)
Theorem get_query_filters_composition (self : ESQueryBuilder) :
  get_query_filters UserFilters_get self =
    match scope_clauses UserFilters_get self with
    | [] => JList []
    | [clause] => clause
    | _ :: _ :: _ => JDict [("and", JList (scope_clauses UserFilters_get self))]
    end.
Proof. rewrite get_query_filters_clauses. apply join_filters_cases. Qed.
(** *** Genomic-interval builder *)





(** *** Interval queries *)

Lemma build_genomic_pos_query_raises (self : ESQueryBuilder) (chr : string)
    (gstart gend : pyval) (assembly : option string) (e : exn) :
  build_genomic_pos_query add_query_filters self chr gstart gend assembly = Raise e →
  e = ValueError.
Proof.
  unfold build_genomic_pos_query.
  assert (∀ v e', safe_genome_pos v = Raise e' → e' = ValueError) as Hpos.
  { intros [| z | t | l |] e'; simpl; try congruence.
    destruct (PyStr.to_int _); congruence. }
  destruct (safe_genome_pos gstart) as [s | e1] eqn:Hs; simpl.
  - destruct (safe_genome_pos gend) as [e2 | e2] eqn:He; simpl; [done |].
    intros [= <-]. eauto.
  - intros [= <-]. eauto.
Qed.

(** C1, as amended.  When the translated query string is classified as a
    genomic-interval query, compiling it raises the user-facing
    [QueryError] exactly when the species is ['all'].  With a list of one
    or more taxonomy ids the species is narrowed to the first id of the
    list and the genomic position query is built for the interval; it is
    returned whenever the start and the end hold a digit.  A list of
    several ids is not rejected. *)
Theorem query_interval_species (self : ESQueryBuilder) (q : string) (d : interval) :
  _parse_interval_query (_translate_datasource SOURCE_TRANSLATORS re_sub q) = Some d →
  let run := query SOURCE_TRANSLATORS re_sub generate_query add_query_filters in
  (run self q = Raise QueryError ↔ species self = SpAll)
  ∧ (∀ (t : Z) (rest : list Z),
       species self = SpIds (t :: rest) →
       let narrowed := set_species self (SpIds [t]) in
       run self q =
         (_q ← build_genomic_pos_query add_query_filters narrowed
                 (chr d) (PStr (gstart d)) (PStr (gend d)) (assembly d);
          Ok (narrowed, _q))
       ∧ (PyStr.existsb PyStr.isdigit (gstart d) = true →
          PyStr.existsb PyStr.isdigit (gend d) = true →
          ∃ _q, run self q = Ok (narrowed, _q))).
Proof.
  intros Hd run. subst run. unfold query. rewrite Hd.
  destruct (parse_interval_groups _ _ Hd) as [Hstart Hend].
  split.
  - destruct (species self) as [| [| t rest]]; [done | done |].
    split; [| done].
    destruct (build_genomic_pos_query _ _ _ _ _ _) as [_q | e] eqn:Hb;
      simpl; [done |].
    apply build_genomic_pos_query_raises in Hb as ->. done.
  - intros t rest ->. split; [reflexivity |].
    intros Hs He.
    destruct (position_normalises _ Hstart Hs) as [s Hs'].
    destruct (position_normalises _ Hend He) as [e He'].
    unfold build_genomic_pos_query. rewrite Hs', He'. simpl. eauto.
Qed.

End BuilderFacts.

(** * Concrete requests *)

(** ** Interval queries *)

Lemma query_interval_species_witness :
  _parse_interval_query
    (_translate_datasource Sample.translators Sample.sub "hg19.chr7:100-200")
    = Some (mkInterval "7" "100" "200" (Some "hg19"))
  ∧ query Sample.translators Sample.sub Sample.generate Sample.add_filters
      (Sample.builder SpAll) "hg19.chr7:100-200"
    = Raise QueryError.
Proof.
  assert (_parse_interval_query
            (_translate_datasource Sample.translators Sample.sub "hg19.chr7:100-200")
          = Some (mkInterval "7" "100" "200" (Some "hg19"))) as Hd
    by reflexivity.
  split; [exact Hd |].
  destruct (query_interval_species Sample.translators Sample.sub Sample.generate
              Sample.add_filters (Sample.builder SpAll) "hg19.chr7:100-200" _ Hd)
    as [[_ Hall] _].
  apply Hall. reflexivity.
Defined.

(** The claim C1 as stated fails: a genomic-interval query with two
    taxonomy ids is compiled, for the first of them. *)
Lemma query_interval_two_species :
  _parse_interval_query
    (_translate_datasource Sample.translators Sample.sub "chr1:1,000-2,000")
    = Some (mkInterval "1" "1,000" "2,000" None)
  ∧ query Sample.translators Sample.sub Sample.generate Sample.add_filters
      (Sample.builder (SpIds [9606; 10090])) "chr1:1,000-2,000"
    = Ok (Sample.builder (SpIds [9606]),
          [("query",
            JDict [("nested", JDict [
              ("path", JStr "genomic_pos");
              ("query", JDict [("bool", JDict [("must", JList [
                 JDict [("term", JDict [("genomic_pos.chr", JStr "1")])];
                 JDict [("range", JDict [("genomic_pos.start",
                                          JDict [("lte", JInt 2000)])])];
                 JDict [("range", JDict [("genomic_pos.end",
                                          JDict [("gte", JInt 1000)])])] ])])]) ])])]).
Proof. split; reflexivity. Qed.

(** ** Species resolver *)

Lemma cleaned_species_resolved_witness :
  PStr "Human, 9606 ,unicorn" ≠ POther
  ∧ ∃ r, _cleaned_species (ESQuery_init Sample.index_all)
           (PStr "Human, 9606 ,unicorn") false = Ok r.
Proof.
  assert (PStr "Human, 9606 ,unicorn" ≠ POther) as Hsel by discriminate.
  split; [exact Hsel |].
  destruct (cleaned_species_resolved (ESQuery_init Sample.index_all)
              (PStr "Human, 9606 ,unicorn") false Hsel) as (r & Hr & _).
  exists r. exact Hr.
Defined.

(** The claim C2 as stated fails: a selector made of an unknown name is
    accepted and resolves to the empty list, which is neither ['all'] nor a
    non-empty list of ids. *)
Lemma cleaned_species_empty_list :
  _cleaned_species (ESQuery_init Sample.index_all) (PStr "unicorn") false
    = Ok (PList [])
  ∧ ¬ (PList [] = PStr "all"
       ∨ ∃ ids : list Z, ids ≠ [] ∧ PList [] = PList (AInt <$> ids)).
Proof.
  split; [reflexivity |].
  intros [Hall | (ids & Hne & Hids)]; [discriminate Hall |].
  destruct ids as [| t ids]; [done | discriminate Hids].
Qed.

(** ** Scoped-identifier builder *)

Lemma build_id_query_nohits_witness :
  ("entrezgene" = "entrezgene" ∨ "entrezgene" = "retired")
  ∧ is_int (AStr "not-a-number") = false
  ∧ build_id_query Sample.add_filters (Sample.builder SpAll)
      (AStr "not-a-number") (ScStr "entrezgene")
    = Ok [("query", add_species_custom_filters_score _nohits_query)].
Proof.
  split; [by left |]. split; [reflexivity |].
  exact (proj1 (build_id_query_nohits Sample.add_filters (Sample.builder SpAll)
                  (AStr "not-a-number") "entrezgene"
                  (or_introl eq_refl) eq_refl)).
Defined.

(** ** Index router *)

Lemma set_index_routes_witness :
  _tier_1_species (ESQuery_init Sample.index_all) = list_to_set tier_1_ids
  ∧ Sample.index_all ≠ Sample.index_tier1
  ∧ _index (_set_index Sample.index_all Sample.index_tier1
              (ESQuery_init Sample.index_all) (SpIds [9606; 10090]))
    = Sample.index_tier1.
Proof.
  assert (_tier_1_species (ESQuery_init Sample.index_all)
          = list_to_set tier_1_ids) as Htier by reflexivity.
  assert (Sample.index_all ≠ Sample.index_tier1) as Hne by discriminate.
  split; [exact Htier |]. split; [exact Hne |].
  destruct (set_index_routes Sample.index_all Sample.index_tier1
              (ESQuery_init Sample.index_all) (SpIds [9606; 10090]) Htier Hne)
    as (_ & [_ Htier1] & _).
  apply Htier1. exists [9606; 10090]. split; [reflexivity |].
  intros t Ht. unfold tier_1_ids.
  destruct (proj1 (elem_of_cons _ _ _) Ht) as [-> | Ht'].
  - constructor.
  - destruct (proj1 (elem_of_cons _ _ _) Ht') as [-> | Hnil].
    + do 2 constructor.
    + destruct (proj1 (elem_of_nil _) Hnil).
Defined.

(** ** Genomic-interval builder *)


(** ** Relevance builder *)

Lemma dis_max_query_integer_clause_witness :
  PyStr.existsb PyStr.iscntrl (unquote "1017") = false
  ∧ ∃ _query : json,
      dis_max_query "1017" = Ok _query
      ∧ dis_max_queries _query =
          [ weighted (JDict [("term", JDict [("entrezgene", JInt 1017)])])
                     (JInt 8) ].
Proof.
  split; [reflexivity |].
  destruct (dis_max_query_integer_clause "1017" eq_refl)
    as (_query & standard & Hq & _ & _ & _ & Hint & _).
  exists _query. split; [exact Hq |].
  exact (proj1 (Hint eq_refl)).
Defined.

(** The claim C8 as stated fails: the string made of a double quote, [12]
    and a double quote does not parse as an integer, and yet its clause list
    is the single [entrezgene] clause, not the standard list. *)
Lemma dis_max_query_quoted_number :
  is_int (AStr (String PyStr.dquote ("12" ++ String PyStr.dquote "")%string)) = false
  ∧ dis_max_query (String PyStr.dquote ("12" ++ String PyStr.dquote "")%string) =
      Ok (JDict [("dis_max", JDict [
            ("tie_breaker", JInt 0); ("boost", JInt 1);
            ("queries", JList [
               weighted (JDict [("term", JDict [("entrezgene", JInt 12)])])
                        (JInt 8)])])]).
Proof. split; reflexivity. Qed.

(** ** Post-filter on the species facet *)

Lemma add_facet_filters_by_species_length_witness :
  species_facet_filter (Sample.faceted SpAll (SpIds [9606])) = Some (SpIds [9606])
  ∧ add_facet_filters (Sample.faceted SpAll (SpIds [9606])) [("query", JNull)]
    = Ok [("query", JNull);
          ("filter", JDict [("terms", JDict [("taxid", JList [JInt 9606])])])].
Proof.
  split; [reflexivity |].
  destruct (add_facet_filters_by_species_length
              (Sample.faceted SpAll (SpIds [9606])) [("query", JNull)] 9606 []
              eq_refl) as (_ & _ & Hall & _).
  exact (Hall eq_refl eq_refl).
Defined.

(** * Further properties *)

(** ** Species resolver, continued *)

Section ResolverCase.
Import PyStrFacts.


Lemma lower_char_idem (c : ascii) :
  PyStr.lower_char (PyStr.lower_char c) = PyStr.lower_char c.
Proof. by destruct c as [[] [] [] [] [] [] [] []]. Qed.

Lemma lower_char_space (c : ascii) :
  PyStr.isspace (PyStr.lower_char c) = PyStr.isspace c.
Proof. by destruct c as [[] [] [] [] [] [] [] []]. Qed.

Lemma lower_char_comma (c : ascii) :
  Ascii.eqb (PyStr.lower_char c) PyStr.comma = Ascii.eqb c PyStr.comma.
Proof. by destruct c as [[] [] [] [] [] [] [] []]. Qed.

Lemma lower_idem (s : string) : PyStr.lower (PyStr.lower s) = PyStr.lower s.
Proof.
  induction s as [| c s IH]; [done |].
  unfold PyStr.lower in *. cbn [PyStr.map]. by rewrite lower_char_idem, IH.
Qed.

Lemma lstrip_lower (s : string) :
  PyStr.lstrip_by PyStr.isspace (PyStr.lower s)
  = PyStr.lower (PyStr.lstrip_by PyStr.isspace s).
Proof.
  induction s as [| c s IH]; [done |].
  unfold PyStr.lower in *. cbn [PyStr.map PyStr.lstrip_by].
  rewrite lower_char_space. by destruct (PyStr.isspace c).
Qed.

Lemma rstrip_lower (s : string) :
  PyStr.rstrip_by PyStr.isspace (PyStr.lower s)
  = PyStr.lower (PyStr.rstrip_by PyStr.isspace s).
Proof.
  induction s as [| c s IH]; [done |].
  unfold PyStr.lower in *. cbn [PyStr.map PyStr.rstrip_by].
  rewrite IH, lower_char_space.
  destruct (PyStr.rstrip_by PyStr.isspace s) as [| c' t]; cbn [PyStr.map];
    [by destruct (PyStr.isspace c) | done].
Qed.

Lemma strip_lower (s : string) :
  PyStr.strip (PyStr.lower s) = PyStr.lower (PyStr.strip s).
Proof. unfold PyStr.strip, PyStr.strip_by. by rewrite lstrip_lower, rstrip_lower. Qed.

Lemma split_lower (s : string) :
  PyStr.split PyStr.comma (PyStr.lower s)
  = PyStr.lower <$> PyStr.split PyStr.comma s.
Proof.
  induction s as [| c s IH]; [done |].
  unfold PyStr.lower in *. cbn [PyStr.map PyStr.split].
  rewrite lower_char_comma, IH.
  destruct (Ascii.eqb c PyStr.comma); [done |].
  by destruct (PyStr.split PyStr.comma s).
Qed.

(** X1.  A species string is read without regard to letter case: the
    resolver gives the same result on a string and on its lower-cased
    form. *)
Theorem cleaned_species_case_insensitive (self : ESQuery) (s : string) (dtn : bool) :
  _cleaned_species self (PStr s) dtn
  = _cleaned_species self (PStr (PyStr.lower s)) dtn.
Proof.
  unfold _cleaned_species. rewrite lower_idem, split_lower.
  destruct (String.eqb (PyStr.lower s) "all"); [done |].
  do 3 f_equal. rewrite <- list_fmap_compose. apply list_fmap_ext.
  intros _ t _. cbn. by rewrite strip_lower, lower_idem.
Qed.

(** X2.  The resolver is idempotent: what it returns resolves to itself
    (under [default_to_none], so that [None] stays [None]). *)
Theorem cleaned_species_idempotent (self : ESQuery) (sel r : pyval) (dtn : bool) :
  _cleaned_species self sel dtn = Ok r →
  _cleaned_species self r true = Ok r.
Proof.
  assert (∀ l, _cleaned_species self (PList (resolve_entries l)) true
               = Ok (PList (resolve_entries l))) as Hlist.
  { intros l. cbn [_cleaned_species].
    by rewrite !resolve_entries_omap, recognise_ints. }
  destruct sel as [| z | s | l |]; cbn [_cleaned_species].
  - destruct dtn; intros [= <-]; [done |].
    cbn [_cleaned_species]. by rewrite resolve_entries_omap, recognise_ints.
  - intros [= <-]. reflexivity.
  - destruct (String.eqb (PyStr.lower s) "all") eqn:Hall.
    + apply String.eqb_eq in Hall. rewrite Hall. intros [= <-]. reflexivity.
    + intros [= <-]. apply Hlist.
  - intros [= <-]. apply Hlist.
  - done.
Qed.

End ResolverCase.

Lemma taxonomy_get_tier_1 (name : string) (t : Z) :
  taxonomy_get name TAXONOMY = Some t → t ∈ tier_1_ids.
Proof.
  unfold TAXONOMY, tier_1_ids. cbn [taxonomy_get].
  repeat (destruct (String.eqb _ name);
          [intros [= <-]; repeat constructor |]).
  done.
Qed.

Lemma recognise_names_tier_1 (tokens : list atom) :
  Forall (fun a => is_int a = false) tokens →
  ∀ t, t ∈ omap recognise tokens → t ∈ tier_1_ids.
Proof.
  intros Hnames t Ht. destruct (proj1 (list_elem_of_omap _ _ _) Ht) as (a & Ha & Hrec).
  rewrite Forall_forall in Hnames. specialize (Hnames a Ha).
  unfold recognise in Hrec. rewrite Hnames in Hrec.
  destruct a as [z | name]; [done |].
  by apply (taxonomy_get_tier_1 name).
Qed.

Section ResolverRouting.
Variables ES_INDEX_NAME ES_INDEX_NAME_TIER1 : string.

(** X3.  A selector made of names only is served from the tier-1 index:
    when no token of a string or of a sequence is integer-shaped, the ids
    the resolver returns, if any, are all tier-1 ids, and the router picks
    the tier-1 index for them, also when the list is empty. *)
Theorem names_route_to_tier_1 (self : ESQuery) (sel : pyval) (dtn : bool)
    (resolved : list atom) :
  _tier_1_species self = list_to_set tier_1_ids →
  Forall (fun a => is_int a = false) (selector_tokens self sel) →
  _cleaned_species self sel dtn = Ok (PList resolved) →
  ∃ ids : list Z,
    resolved = AInt <$> ids
    ∧ (∀ t, t ∈ ids → t ∈ tier_1_ids)
    ∧ _index (_set_index ES_INDEX_NAME ES_INDEX_NAME_TIER1 self (SpIds ids))
      = ES_INDEX_NAME_TIER1.
Proof.
  intros Htier Hnames Hres.
  assert (resolved = AInt <$> omap recognise (selector_tokens self sel)) as ->.
  { revert Hres.
    destruct sel as [| z | s | l |]; cbn [_cleaned_species].
    - destruct dtn; [done |]. intros [= <-]. cbn [selector_tokens].
      by rewrite recognise_ints.
    - by intros [= <-].
    - destruct (String.eqb (PyStr.lower s) "all"); [done |].
      intros [= <-]. by rewrite resolve_entries_omap.
    - intros [= <-]. by rewrite resolve_entries_omap.
    - done. }
  exists (omap recognise (selector_tokens self sel)).
  pose proof (recognise_names_tier_1 _ Hnames) as Hin.
  split; [done |]. split; [done |].
  rewrite set_index_ids. case_bool_decide as Hsize; [| done].
  apply outside_tier_1_iff in Hsize as (t & Ht & Hnot).
  exfalso. apply Hnot. rewrite Htier. apply elem_of_list_to_set. by apply Hin.
Qed.
End ResolverRouting.

(** ** Options and search *)

Section OptionsFacts.
Variable E : Type.
Variable expand_species : string → option pyval + E.

Lemma cleaned_species_ok_iff (self : ESQuery) (sel : pyval) (dtn : bool) :
  (∃ r, _cleaned_species self sel dtn = Ok r) ↔ sel ≠ POther.
Proof.
  destruct sel as [| z | s | l |]; cbn [_cleaned_species].
  - split; [done | intros _; by eexists].
  - split; [done | intros _; by eexists].
  - split; [done | intros _; destruct (String.eqb _ _); by eexists].
  - split; [done | intros _; by eexists].
  - split; [by intros [r [=]] | done].
Qed.

Lemma cleaned_species_none_iff (self : ESQuery) (sel : pyval) :
  _cleaned_species self sel true = Ok PNone ↔ sel = PNone.
Proof.
  destruct sel as [| z | s | l |]; cbn [_cleaned_species]; try done.
  destruct (String.eqb _ _); done.
Qed.

(** X4.  [_get_options] resolves the species first: a selector of a refused
    type raises [ValueError], whatever the taxonomy service would do.
    Otherwise the resolved species is never [None], and: without the
    tax-tree flag the service is not consulted; with the flag, an error
    raised by the service call propagates, even when the facet selector
    would be refused; a service that answers with another status leaves the
    resolved species in place, and one that answers OK has its answer
    stored as it is.  When the service call does not raise, a facet
    selector of a refused type raises [ValueError]; if it is accepted, the
    facet filter stored is [None] exactly when none was given. *)
Theorem get_options_species (self : ESQuery) (species sff : pyval)
    (include_tax_tree : bool) :
  (species = POther →
     _get_options expand_species self species include_tax_tree sff
     = inl (Raise ValueError))
  ∧ (include_tax_tree = false →
     ∀ other : string → option pyval + E,
       _get_options expand_species self species include_tax_tree sff
       = _get_options other self species include_tax_tree sff)
  ∧ (species ≠ POther →
     ∃ resolved,
       _cleaned_species self species false = Ok resolved
       ∧ resolved ≠ PNone
       ∧ (∀ e, include_tax_tree = true →
            expand_species (species_url resolved) = inr e →
            _get_options expand_species self species include_tax_tree sff
            = inr e)
       ∧ (∀ stored,
            (include_tax_tree = false ∧ stored = resolved)
            ∨ (include_tax_tree = true
               ∧ expand_species (species_url resolved) = inl None
               ∧ stored = resolved)
            ∨ (include_tax_tree = true
               ∧ expand_species (species_url resolved) = inl (Some stored)) →
            (sff = POther →
               _get_options expand_species self species include_tax_tree sff
               = inl (Raise ValueError))
            ∧ (sff ≠ POther →
               ∃ facet,
                 _get_options expand_species self species include_tax_tree sff
                 = inl (Ok (stored, facet))
                 ∧ (facet = PNone ↔ sff = PNone)))).
Proof.
  split; [by intros -> |].
  split.
  { intros -> other. unfold _get_options.
    by destruct (_cleaned_species self species false). }
  intros Hsp.
  destruct (proj2 (cleaned_species_ok_iff self species false) Hsp)
    as [resolved Hr].
  exists resolved. split; [exact Hr |].
  split.
  { intros ->. revert Hr.
    destruct species as [| z | s | l |]; cbn [_cleaned_species]; try done.
    destruct (String.eqb _ _); done. }
  unfold _get_options. rewrite Hr.
  split; [by intros e -> -> |].
  intros stored Hstored.
  assert (Hfacet :
    (sff = POther →
       (species_facet_filter ← _cleaned_species self sff true;
        Ok (stored, species_facet_filter)) = Raise ValueError)
    ∧ (sff ≠ POther →
       ∃ facet,
         (species_facet_filter ← _cleaned_species self sff true;
          Ok (stored, species_facet_filter)) = Ok (stored, facet)
         ∧ (facet = PNone ↔ sff = PNone))).
  { split; [by intros -> |].
    intros Hsff.
    destruct (proj2 (cleaned_species_ok_iff self sff true) Hsff) as [facet Hf].
    exists facet. rewrite Hf. split; [reflexivity |].
    rewrite <- (cleaned_species_none_iff self sff), Hf.
    split; [by intros -> | by intros [= ->]]. }
  destruct Hfacet as [Hbad Hgood].
  destruct Hstored as [[-> ->] | [(-> & -> & ->) | [-> ->]]].
  - split; [intros H; by rewrite (Hbad H) |].
    intros H. destruct (Hgood H) as (facet & -> & Hnone). by exists facet.
  - split; [intros H; by rewrite (Hbad H) |].
    intros H. destruct (Hgood H) as (facet & -> & Hnone). by exists facet.
  - split; [intros H; by rewrite (Hbad H) |].
    intros H. destruct (Hgood H) as (facet & -> & Hnone). by exists facet.
Qed.
End OptionsFacts.

Section SearchFacts.
Variables ES_INDEX_NAME ES_INDEX_NAME_TIER1 : string.
Variable E : Type.
Variable es_search : string → dict → dict → json + E.

(** X5.  [_search] sends the query to the index the router selects for
    the species.  When the call returns, the router is left on the full
    index; when the call raises, the router is left on the index selected
    for this search, since the reset is not reached. *)
Theorem search_resets_index (self : ESQuery) (q : dict) (sp : species_t)
    (scroll_options : dict) :
  let routed := _index (_set_index ES_INDEX_NAME ES_INDEX_NAME_TIER1 self sp) in
  let out := _search ES_INDEX_NAME ES_INDEX_NAME_TIER1 E es_search self q sp scroll_options in
  out.2 = es_search routed q scroll_options
  ∧ (∀ res, out.2 = inl res → _index out.1 = ES_INDEX_NAME)
  ∧ (∀ err, out.2 = inr err → _index out.1 = routed)
  ∧ _tier_1_species out.1 = _tier_1_species self
  ∧ _default_species out.1 = _default_species self.
Proof.
  intros routed out. subst routed out. unfold _search.
  destruct (es_search _ q scroll_options) as [res | err] eqn:Hcall; cbn [fst snd].
  - repeat split; try done; by destruct sp as [| ids]; cbn; try destruct (bool_decide _).
  - repeat split; try done; by destruct sp as [| ids]; cbn; try destruct (bool_decide _).
Qed.
End SearchFacts.

(** ** Interval pattern, continued *)

Section IntervalRoundTrip.
Import PyStrFacts.

Lemma span_eq (p : ascii → bool) (s a r : string) :
  PyStr.span p s = (a, r) → s = (a ++ r)%string.
Proof.
  revert a r. induction s as [| c s IH]; intros a r; cbn [PyStr.span].
  - by intros [= <- <-].
  - destruct (p c).
    + destruct (PyStr.span p s) as [a' r'] eqn:Hspan. intros [= <- <-].
      change (String c s = String c (a' ++ r')%string). f_equal. by apply IH.
    + by intros [= <- <-].
Qed.

Lemma span_stop (p : ascii → bool) (a r : string) :
  PyStr.forallb p a = true →
  match r with String c _ => p c = false | EmptyString => True end →
  PyStr.span p (a ++ r)%string = (a, r).
Proof.
  intros Ha Hr. induction a as [| c a IH].
  - change (PyStr.span p r = ("", r)). destruct r as [| c r]; [done |].
    cbn [PyStr.span]. by rewrite Hr.
  - cbn [PyStr.forallb] in Ha. apply andb_true_iff in Ha as [Hc Ha].
    change (PyStr.span p (String c (a ++ r)%string) = (String c a, r)).
    cbn [PyStr.span]. by rewrite Hc, (IH Ha).
Qed.

Lemma startswith_eq (p s : string) :
  PyStr.startswith p s = true →
  s = (p ++ PyStr.drop (String.length p) s)%string.
Proof.
  revert s. induction p as [| a p IH]; intros s; [done |].
  destruct s as [| b s]; [done |]. cbn [PyStr.startswith].
  intros [Hab Hp]%andb_true_iff. apply Ascii.eqb_eq in Hab as ->.
  change (String b s = String b (p ++ PyStr.drop (String.length p) s)%string).
  f_equal. by apply IH.
Qed.

Lemma match_interval_here_eq (s w a b : string) :
  match_interval_here s = Some (w, a, b) →
  ∃ post, s = ("chr" ++ w ++ ":" ++ a ++ "-" ++ b ++ post)%string
          ∧ PyStr.nonempty w = true ∧ PyStr.forallb PyStr.isword w = true
          ∧ PyStr.nonempty a = true ∧ PyStr.nonempty b = true.
Proof.
  unfold match_interval_here.
  destruct (PyStr.startswith "chr" s) eqn:Hchr; [| done].
  apply startswith_eq in Hchr. cbn [String.length] in Hchr.
  destruct (PyStr.span PyStr.isword (PyStr.drop 3 s)) as [w' r1] eqn:Hw.
  pose proof (span_forallb _ _ _ _ Hw) as Hword.
  apply span_eq in Hw.
  destruct w' as [| cw w']; [done |].
  destruct r1 as [| c1 r2]; [done |].
  destruct (Ascii.eqb c1 ":") eqn:Hc1;
    [apply Ascii.eqb_eq in Hc1 as -> |].
  2: { destruct c1 as [[] [] [] [] [] [] [] []]; done. }
  destruct (PyStr.span ispos r2) as [a' r3] eqn:Ha.
  apply span_eq in Ha.
  destruct a' as [| ca a']; [done |].
  destruct r3 as [| c3 r4]; [done |].
  destruct (Ascii.eqb c3 "-") eqn:Hc3;
    [apply Ascii.eqb_eq in Hc3 as -> |].
  2: { destruct c3 as [[] [] [] [] [] [] [] []]; done. }
  destruct (PyStr.span ispos r4) as [b' r5] eqn:Hb.
  apply span_eq in Hb.
  destruct b' as [| cb b']; [done |].
  intros [= <- <- <-].
  exists r5. split; [| done].
  rewrite Hchr, Hw, Ha, Hb. reflexivity.
Qed.

Lemma search_interval_eq (s w a b : string) :
  search_interval s = Some (w, a, b) →
  ∃ pre post, s = (pre ++ "chr" ++ w ++ ":" ++ a ++ "-" ++ b ++ post)%string
              ∧ PyStr.nonempty w = true ∧ PyStr.forallb PyStr.isword w = true
              ∧ PyStr.nonempty a = true ∧ PyStr.nonempty b = true.
Proof.
  induction s as [| c s IH]; [done |].
  cbn [search_interval].
  destruct (match_interval_here (String c s)) as [[[w' a'] b'] |] eqn:Hm.
  - intros [= -> -> ->].
    destruct (match_interval_here_eq _ _ _ _ Hm) as (post & Hs & Hrest).
    exists "", post. by split.
  - intros Hs. destruct (IH Hs) as (pre & post & -> & Hrest).
    exists (String c pre), post. by split.
Qed.

(** X6.  What [_parse_interval_query] returns is read off the query
    string: the string holds ["chr"], the chromosome, a colon, the start, a
    dash and the end, in this order; the chromosome is a non-empty run of
    word characters, start and end are non-empty runs of digits and commas;
    and the assembly is ["mm9"] or ["hg19"] when the string starts with
    ["mm9."] or ["hg19."], absent otherwise.  So a string without a colon
    is never an interval query. *)
Theorem parse_interval_sound (q : string) (d : interval) :
  _parse_interval_query q = Some d →
  (∃ pre post,
     q = (pre ++ "chr" ++ chr d ++ ":" ++ gstart d ++ "-" ++ gend d ++ post)%string)
  ∧ PyStr.nonempty (chr d) = true
  ∧ PyStr.forallb PyStr.isword (chr d) = true
  ∧ PyStr.nonempty (gstart d) = true ∧ PyStr.forallb ispos (gstart d) = true
  ∧ PyStr.nonempty (gend d) = true ∧ PyStr.forallb ispos (gend d) = true
  ∧ assembly d =
      (if PyStr.startswith "mm9." q then Some "mm9"
       else if PyStr.startswith "hg19." q then Some "hg19" else None)
  ∧ PyStr.existsb (Ascii.eqb ":") q = true.
Proof.
  intros Hd.
  destruct (parse_interval_groups q d Hd) as [Hstart Hend].
  revert Hd. unfold _parse_interval_query.
  destruct (PyStr.nonempty q); [| done].
  destruct (search_interval q) as [[[w a] b] |] eqn:Hs; [| done].
  destruct (search_interval_eq _ _ _ _ Hs) as (pre & post & Hq & Hw & Hword & Ha & Hb).
  generalize (PyStr.startswith "hg19." q) (PyStr.startswith "mm9." q).
  intros hg mm [= <-]. cbn [chr gstart gend assembly] in *.
  split; [by exists pre, post |].
  do 6 (split; [done |]).
  split; [by destruct hg, mm |].
  rewrite Hq. clear.
  induction pre as [| c pre IH].
  - change (PyStr.existsb (Ascii.eqb ":")
              (String "c" (String "h" (String "r" (w ++ String ":" (a ++ "-" ++ b ++ post)))))%string
            = true).
    cbn [PyStr.existsb]. rewrite !orb_true_iff. right; right; right.
    induction w as [| c w IH]; [reflexivity |].
    change (PyStr.existsb (Ascii.eqb ":")
              (String c (w ++ String ":" (a ++ "-" ++ b ++ post)))%string = true).
    cbn [PyStr.existsb]. by rewrite IH, orb_true_r.
  - change (PyStr.existsb (Ascii.eqb ":")
              (String c (pre ++ "chr" ++ w ++ ":" ++ a ++ "-" ++ b ++ post))%string
            = true).
    cbn [PyStr.existsb]. by rewrite IH, orb_true_r.
Qed.

Lemma match_interval_here_formatted (w a b post : string) :
  PyStr.nonempty w = true → PyStr.forallb PyStr.isword w = true →
  PyStr.nonempty a = true → PyStr.forallb ispos a = true →
  PyStr.nonempty b = true → PyStr.forallb ispos b = true →
  match post with String c _ => ispos c = false | EmptyString => True end →
  match_interval_here ("chr" ++ w ++ ":" ++ a ++ "-" ++ b ++ post)%string
  = Some (w, a, b).
Proof.
  intros Hw Hword Ha Hpos_a Hb Hpos_b Hpost.
  change (("chr" ++ w ++ ":" ++ a ++ "-" ++ b ++ post)%string)
    with (String "c" (String "h" (String "r"
            (w ++ String ":" (a ++ String "-" (b ++ post)))))%string).
  unfold match_interval_here.
  change (PyStr.startswith "chr" (String "c" (String "h" (String "r" ?x))))
    with true.
  cbn [PyStr.drop].
  rewrite (span_stop PyStr.isword w _ Hword) by reflexivity.
  destruct w as [| cw w]; [done |].
  rewrite (span_stop ispos a _ Hpos_a) by reflexivity.
  destruct a as [| ca a]; [done |].
  rewrite (span_stop ispos b _ Hpos_b) by exact Hpost.
  by destruct b as [| cb b].
Qed.

Lemma search_interval_here (s : string) (m : string * string * string) :
  match_interval_here s = Some m → search_interval s = Some m.
Proof. intros Hm. destruct s; cbn [search_interval]; by rewrite Hm. Qed.

Lemma search_interval_skip (c : ascii) (s : string) :
  Ascii.eqb "c" c = false → search_interval (String c s) = search_interval s.
Proof.
  intros Hc. cbn [search_interval].
  unfold match_interval_here at 1. cbn [PyStr.startswith]. by rewrite Hc.
Qed.

(** X7.  An interval written as ["chr"], a chromosome made of word
    characters, a colon, a start and a dash and an end made of digits and
    commas, is read back as it was written, whatever follows the end (other
    than a digit or a comma); with the prefix ["hg19."] or ["mm9."] the same
    interval is read with that assembly. *)
Theorem parse_interval_formatted (w a b post : string) :
  PyStr.nonempty w = true → PyStr.forallb PyStr.isword w = true →
  PyStr.nonempty a = true → PyStr.forallb ispos a = true →
  PyStr.nonempty b = true → PyStr.forallb ispos b = true →
  match post with String c _ => ispos c = false | EmptyString => True end →
  let text := ("chr" ++ w ++ ":" ++ a ++ "-" ++ b ++ post)%string in
  _parse_interval_query text = Some (mkInterval w a b None)
  ∧ _parse_interval_query ("hg19." ++ text)%string
    = Some (mkInterval w a b (Some "hg19"))
  ∧ _parse_interval_query ("mm9." ++ text)%string
    = Some (mkInterval w a b (Some "mm9")).
Proof.
  intros Hw Hword Ha Hpos_a Hb Hpos_b Hpost text.
  pose proof (search_interval_here _ _
                (match_interval_here_formatted w a b post
                   Hw Hword Ha Hpos_a Hb Hpos_b Hpost)) as Hsearch.
  fold text in Hsearch.
  assert (∃ rest, text = String "c" rest) as [rest Htext] by (by eexists).
  split; [| split].
  - unfold _parse_interval_query. rewrite Hsearch, Htext. reflexivity.
  - change ("hg19." ++ text)%string
      with (String "h" (String "g" (String "1" (String "9" (String "." text))))).
    unfold _parse_interval_query. cbn [PyStr.nonempty].
    rewrite !search_interval_skip by reflexivity. rewrite Hsearch. reflexivity.
  - change ("mm9." ++ text)%string
      with (String "m" (String "m" (String "9" (String "." text)))).
    unfold _parse_interval_query. cbn [PyStr.nonempty].
    rewrite !search_interval_skip by reflexivity. rewrite Hsearch. reflexivity.
Qed.

End IntervalRoundTrip.

(** ** Positions and identifier queries *)

Section PositionFacts.
Import PyStrFacts.

(** X8.  [safe_genome_pos] ignores commas wherever they stand: a string
    and the same string without its commas give the same result.  An
    integer is returned as it is, and the only error raised is
    [ValueError]. *)
Theorem safe_genome_pos_commas (t : string) :
  safe_genome_pos (PStr t) = safe_genome_pos (PStr (PyStr.remove PyStr.comma t))
  ∧ (∀ z, safe_genome_pos (PInt z) = Ok z)
  ∧ (∀ v e, safe_genome_pos v = Raise e → e = ValueError).
Proof.
  split; [| split].
  - cbn [safe_genome_pos]. unfold PyStr.remove.
    by rewrite (filter_id _ (PyStr.filter _ t)) by apply filter_forallb.
  - done.
  - intros [| z | s | l |] e; cbn [safe_genome_pos]; try congruence.
    destruct (PyStr.to_int _); congruence.
Qed.

End PositionFacts.

Section IdQueryFacts.
Variable add_query_filters : ESQueryBuilder → json → json.

(** X9.  [build_genomic_pos_query] returns a query exactly when both
    positions normalise to integers; otherwise it raises [ValueError] and
    nothing else, whatever the chromosome and the assembly. *)
Theorem build_genomic_pos_query_errors (self : ESQueryBuilder) (chr : string)
    (gstart gend : pyval) (assembly : option string) :
  ((∃ _q, build_genomic_pos_query add_query_filters self chr gstart gend assembly
          = Ok _q)
   ↔ (∃ s, safe_genome_pos gstart = Ok s) ∧ (∃ e, safe_genome_pos gend = Ok e))
  ∧ (∀ err, build_genomic_pos_query add_query_filters self chr gstart gend assembly
            = Raise err → err = ValueError).
Proof.
  split; [| intros err; apply build_genomic_pos_query_raises].
  unfold build_genomic_pos_query.
  destruct (safe_genome_pos gstart) as [s | e1]; cbn [mbind result_bind rbind].
  - destruct (safe_genome_pos gend) as [e | e2]; cbn [mbind result_bind rbind].
    + split; [eauto | intros _; by eexists].
    + split; [by intros [_q [=]] | by intros [_ [e [=]]]].
  - split; [by intros [_q [=]] | by intros [[s [=]] _]].
Qed.


Lemma list_remove_absent (x : string) (l : list string) :
  str_in x l = false → list_remove x l = l.
Proof.
  induction l as [| z l IH]; [done |].
  unfold str_in in *. cbn [List.existsb list_remove].
  intros [Hz Hl]%orb_false_iff.
  rewrite String.eqb_sym in Hz. by rewrite Hz, IH.
Qed.


(** X11.  For an integer-shaped id, a list of scopes that holds neither
    ['entrezgene'] nor ['retired'] gives the zero-hit query, even when the
    list names other fields; the same id with one such field given as a
    string is matched against that field. *)
Theorem build_id_query_int_other_fields (self : ESQueryBuilder) (id : atom)
    (scopes : list string) (field : string) :
  is_int id = true →
  str_in "entrezgene" scopes = false →
  str_in "retired" scopes = false →
  field ≠ "entrezgene" → field ≠ "retired" →
  build_id_query add_query_filters self id (ScSeq scopes)
  = Ok (with_options self
          (add_species_custom_filters_score
             (add_query_filters self _nohits_query)))
  ∧ build_id_query add_query_filters self id (ScStr field)
    = Ok (with_options self
            (add_species_custom_filters_score
               (add_query_filters self
                  (JDict [("match", JDict [(field, JDict [
                     ("query", JStr (format_atom id));
                     ("operator", JStr "and")])])])))).
Proof.
  intros Hid He Hr Hf1 Hf2. unfold build_id_query. rewrite Hid, He, Hr.
  split; [reflexivity |].
  unfold str_in. cbn [List.existsb].
  apply String.eqb_neq in Hf1, Hf2. by rewrite Hf1, Hf2.
Qed.

(** X12.  For an id that is not integer-shaped and a duplicate-free list
    of scopes, the fields searched are the scopes other than
    ['entrezgene'] and ['retired'], in their order; when no other scope is
    left the query is the zero-hit query.  Such an id is never matched
    against the two integer fields. *)
Theorem build_id_query_str_fields (self : ESQueryBuilder) (id : atom)
    (scopes : list string) :
  is_int id = false →
  NoDup scopes →
  let fields :=
    List.filter (fun f => negb (String.eqb f "entrezgene")
                          && negb (String.eqb f "retired")) scopes in
  build_id_query add_query_filters self id (ScSeq scopes)
  = Ok (with_options self
          (add_species_custom_filters_score
             (add_query_filters self
                (match fields with
                 | [] => _nohits_query
                 | _ :: _ =>
                     JDict [("multi_match", JDict [
                       ("query", JStr (format_atom id));
                       ("fields", JList (JStr <$> fields));
                       ("operator", JStr "and")])]
                 end)))).
Proof.
  intros Hid Hnodup fields.
  assert (∀ x l, NoDup l →
            list_remove x l = List.filter (fun f => negb (String.eqb f x)) l)
    as Hremove.
  { intros x l Hl. induction Hl as [| z l Hz Hl IH]; [done |].
    cbn [list_remove List.filter].
    destruct (String.eqb z x) eqn:Hzx; cbn [negb]; [| by rewrite IH].
    apply String.eqb_eq in Hzx as ->.
    clear IH Hl. induction l as [| y l IH]; [done |].
    cbn [List.filter].
    destruct (String.eqb y x) eqn:Hyx.
    - apply String.eqb_eq in Hyx as ->. exfalso. apply Hz. constructor.
    - cbn [negb]. f_equal. apply IH. intros Hin. apply Hz. by constructor. }
  assert (∀ x l, list_remove x l
                 = if str_in x l then list_remove x l else l) as Hcase.
  { intros x l. destruct (str_in x l) eqn:Hin; [done |].
    by apply list_remove_absent. }
  assert (NoDup (list_remove "entrezgene" scopes)) as Hnodup'.
  { rewrite Hremove by done.
    by apply NoDup_ListNoDup, List.NoDup_filter, NoDup_ListNoDup. }
  assert (fields = list_remove "retired" (list_remove "entrezgene" scopes))
    as Hfields.
  { rewrite (Hremove "retired") by done. rewrite Hremove by done.
    subst fields. clear. induction scopes as [| z l IH]; [done |].
    cbn [List.filter]. destruct (String.eqb z "entrezgene"); cbn [negb andb];
      [done |].
    cbn [List.filter]. destruct (String.eqb z "retired"); cbn [negb];
      [done | by rewrite IH]. }
  unfold build_id_query. rewrite Hid.
  cbn [mbind result_bind rbind].
  rewrite Hfields.
  rewrite (Hcase "retired" (list_remove "entrezgene" scopes)).
  rewrite (Hcase "entrezgene" scopes).
  destruct (str_in "entrezgene" scopes);
    destruct (str_in "retired" _);
    match goal with
    | |- context [bool_decide (?l ≠ [])] => destruct l
    end; reflexivity.
Qed.
End IdQueryFacts.

(** ** Dicts *)

Lemma dict_get_set_eq (k : string) (v : json) (d : dict) :
  dict_get k (dict_set k v d) = Some v.
Proof.
  induction d as [| [k' v'] d IH]; cbn [dict_set dict_get].
  - by rewrite String.eqb_refl.
  - destruct (String.eqb k' k) eqn:Hk; cbn [dict_get]; by rewrite Hk.
Qed.

Lemma dict_get_set_ne (k k' : string) (v : json) (d : dict) :
  k ≠ k' → dict_get k' (dict_set k v d) = dict_get k' d.
Proof.
  intros Hne. induction d as [| [k0 v0] d IH]; cbn [dict_set dict_get].
  - apply String.eqb_neq in Hne. by rewrite Hne.
  - destruct (String.eqb k0 k) eqn:Hk; cbn [dict_get]; [| by rewrite IH].
    apply String.eqb_eq in Hk as ->.
    apply String.eqb_neq in Hne. by rewrite Hne.
Qed.

Lemma dict_has_get (k : string) (d : dict) :
  dict_has k d = false ↔ dict_get k d = None.
Proof.
  unfold dict_has. induction d as [| [k' v'] d IH]; [done |].
  cbn [List.existsb dict_get fst]. destruct (String.eqb k' k); [done |].
  by rewrite orb_false_l.
Qed.

Lemma dict_get_update_absent (k : string) (d other : dict) :
  dict_has k other = false →
  dict_get k (dict_update d other) = dict_get k d.
Proof.
  unfold dict_update, dict_has. revert d.
  induction other as [| [k' v'] other IH]; intros d; [done |].
  cbn [List.existsb fold_left fst snd]. intros [Hk Hrest]%orb_false_iff.
  rewrite IH by done. apply dict_get_set_ne. by apply String.eqb_neq.
Qed.

Lemma dict_get_filter_keys (p : string → bool) (k : string) (d : dict) :
  dict_get k (List.filter (fun kv => p kv.1) d)
  = if p k then dict_get k d else None.
Proof.
  induction d as [| [k' v'] d IH]; [by destruct (p k) |].
  cbn [List.filter fst dict_get].
  destruct (String.eqb k' k) eqn:Hk.
  - apply String.eqb_eq in Hk. subst k'.
    destruct (p k) eqn:Hp.
    + cbn [dict_get]. by rewrite String.eqb_refl.
    + exact IH.
  - destruct (p k'); [| exact IH].
    cbn [dict_get]. rewrite Hk. exact IH.
Qed.

Lemma dict_get_del (k k' : string) (d : dict) :
  dict_get k' (dict_del k d)
  = if String.eqb k' k then None else dict_get k' d.
Proof.
  unfold dict_del.
  rewrite (dict_get_filter_keys (fun x => negb (String.eqb x k)) k' d).
  by destruct (String.eqb k' k).
Qed.

Section InitFacts.
Variable parse_facets_option : dict → dict.
Variable add_query_filters : ESQueryBuilder → json → json.

Lemma init_options_get (kw : kwargs) (k : string) :
  dict_get k (_query_options (ESQueryBuilder_init parse_facets_option kw))
  = let given :=
      if List.existsb (String.eqb k) _allowed_options
      then dict_get k (parse_facets_option (kw_options kw)) else None in
    match dict_get "fields" (parse_facets_option (kw_options kw)) with
    | Some fields =>
        if is_null fields then given
        else if String.eqb k "fields" then None
        else if String.eqb k "_source" then Some fields
        else given
    | None => given
    end.
Proof.
  cbn [ESQueryBuilder_init _query_options].
  set (opts := parse_facets_option (kw_options kw)).
  set (kept := List.filter _ opts).
  assert (∀ k', dict_get k' kept
                = if List.existsb (String.eqb k') _allowed_options
                  then dict_get k' opts else None) as Hkept.
  { intros k'. subst kept.
    rewrite <- (dict_get_filter_keys
                  (fun x => List.existsb (String.eqb x) _allowed_options)).
    reflexivity. }
  pose proof (Hkept k) as Hk.
  pose proof (Hkept "fields") as Hfields.
  change (List.existsb (String.eqb "fields") _allowed_options) with true
    in Hfields.
  cbv beta iota in Hfields. cbv zeta.
  set (given := if List.existsb (String.eqb k) _allowed_options
                then dict_get k opts else None) in *.
  rewrite Hfields.
  destruct (dict_get "fields" opts) as [fields |]; [| exact Hk].
  destruct (is_null fields); [exact Hk |].
  rewrite dict_get_del.
  destruct (String.eqb k "fields") eqn:Hf; [done |].
  destruct (String.eqb k "_source") eqn:Hs.
  - apply String.eqb_eq in Hs. rewrite Hs. apply dict_get_set_eq.
  - rewrite dict_get_set_ne; [exact Hk |].
    intros Heq. rewrite <- Heq, String.eqb_refl in Hs. discriminate Hs.
Qed.

(** X13.  After [__init__] the options of a builder hold allowed keys
    only, whatever was passed; a [fields] option that is not [None] is
    found under [_source], where it replaces a [_source] option, and no
    [fields] key is left; a [fields] option that is [None] stays.  In
    particular no option is named [query] or [filter]. *)
Theorem init_options_allowed (kw : kwargs) :
  let self := ESQueryBuilder_init parse_facets_option kw in
  let given := parse_facets_option (kw_options kw) in
  (∀ k v, dict_get k (_query_options self) = Some v →
          List.existsb (String.eqb k) _allowed_options = true)
  ∧ (∀ fields, dict_get "fields" given = Some fields → fields ≠ JNull →
       dict_get "_source" (_query_options self) = Some fields
       ∧ dict_get "fields" (_query_options self) = None)
  ∧ (dict_get "fields" given = Some JNull →
       dict_get "fields" (_query_options self) = Some JNull
       ∧ dict_get "_source" (_query_options self) = dict_get "_source" given)
  ∧ dict_get "query" (_query_options self) = None
  ∧ dict_get "filter" (_query_options self) = None.
Proof.
  intros self given. subst self given.
  split; [| split; [| split; [| split]]].
  - intros k v. rewrite init_options_get. cbn zeta.
    destruct (List.existsb (String.eqb k) _allowed_options) eqn:Hk; [done |].
    destruct (dict_get "fields" _) as [fields |]; [| done].
    destruct (is_null fields); [done |].
    destruct (String.eqb k "fields") eqn:Hf; [done |].
    destruct (String.eqb k "_source") eqn:Hs; [| done].
    apply String.eqb_eq in Hs as ->. done.
  - intros fields Hfields Hnull. rewrite !init_options_get, Hfields.
    assert (is_null fields = false) as -> by by destruct fields.
    done.
  - intros Hfields. rewrite !init_options_get, Hfields. done.
  - rewrite init_options_get. cbn.
    destruct (dict_get "fields" _) as [fields |]; [| done].
    by destruct (is_null fields).
  - rewrite init_options_get. cbn.
    destruct (dict_get "fields" _) as [fields |]; [| done].
    by destruct (is_null fields).
Qed.

Lemma with_options_get_absent (self : ESQueryBuilder) (_query : json) (k : string) :
  dict_get k (_query_options self) = None →
  dict_get k (with_options self _query)
  = if String.eqb "query" k then Some _query else None.
Proof.
  intros Habsent. unfold with_options.
  case_bool_decide; [| done].
  rewrite dict_get_update_absent by by apply dict_has_get. done.
Qed.

(** X14.  A builder made by [__init__] always returns the identifier query
    under the key [query]: for scopes that are absent, a string or a list,
    [build_id_query] returns a dict whose [query] entry is the score
    envelope around the filtered query, which no option can replace, and
    which has no [filter] entry. *)
Theorem build_id_query_entry (kw : kwargs) (id : atom) (scopes : scopes_t) :
  scopes ≠ ScOther →
  let self := ESQueryBuilder_init parse_facets_option kw in
  ∃ (_q : dict) (inner : json),
    build_id_query add_query_filters self id scopes = Ok _q
    ∧ dict_get "query" _q
      = Some (add_species_custom_filters_score (add_query_filters self inner))
    ∧ dict_get "filter" _q = None.
Proof.
  intros Hscopes self.
  assert (dict_get "query" (_query_options self) = None
          ∧ dict_get "filter" (_query_options self) = None) as [Hquery Hfilter].
  { subst self. rewrite !init_options_get. cbn.
    destruct (dict_get "fields" _) as [fields |]; [| done].
    by destruct (is_null fields). }
  assert (∃ inner,
            build_id_query add_query_filters self id scopes
            = Ok (with_options self
                    (add_species_custom_filters_score
                       (add_query_filters self inner)))) as [inner Hb].
  { unfold build_id_query.
    destruct scopes as [| field | fields |]; [| | | done].
    - destruct (is_int id); by eexists.
    - destruct (str_in field _), (is_int id); by eexists.
    - destruct (str_in "entrezgene" fields);
        destruct (str_in "retired" _);
        destruct (is_int id);
        cbn [app length];
        try (by eexists);
        destruct (bool_decide _); by eexists. }
  eexists _, inner. split; [exact Hb |].
  by rewrite !with_options_get_absent.
Qed.
End InitFacts.

(** ** Post-filter, scope filter and query paths *)

Lemma add_facet_filters_cases (self : ESQueryBuilder) (_query : dict) :
  add_facet_filters self _query =
    Ok (match species_facet_filter self with
        | Some sff =>
            if species_truthy sff then
              dict_set "filter"
                (if (species_len (species self) =? 1)%nat
                 then JDict [("term", JDict [("taxid",
                        match sff with
                        | SpAll => JStr "a"
                        | SpIds ids => JInt (default 0 (head ids))
                        end)])]
                 else JDict [("terms", JDict [("taxid", json_of_species sff)])])
                _query
            else _query
        | None => _query
        end).
Proof.
  unfold add_facet_filters.
  destruct (species_facet_filter self) as [[| [| t ts]] |];
    cbn [species_truthy species_first]; try reflexivity;
    by destruct (species_len (species self) =? 1)%nat.
Qed.

(** X15.  [add_facet_filters] never raises.  Without a facet filter, or
    with an empty one, it returns the query dict as it is; otherwise it
    sets the [filter] entry, replacing one that was there, and leaves every
    other entry as it was.  A facet filter ['all'] is not read as "no
    filter": the string is used as a value, in a [term] clause on the
    character ['a'] when the species has length one, in a [terms] clause on
    the string ['all'] otherwise. *)
Theorem add_facet_filters_entries (self : ESQueryBuilder) (_query : dict) :
  ∃ _q : dict,
    add_facet_filters self _query = Ok _q
    ∧ (∀ k, k ≠ "filter" → dict_get k _q = dict_get k _query)
    ∧ (species_facet_filter self = None
       ∨ species_facet_filter self = Some (SpIds []) → _q = _query)
    ∧ (∀ sff, species_facet_filter self = Some sff → sff ≠ SpIds [] →
         ∃ clause, dict_get "filter" _q = Some clause)
    ∧ (species_facet_filter self = Some SpAll →
         dict_get "filter" _q =
           Some (if (species_len (species self) =? 1)%nat
                 then JDict [("term", JDict [("taxid", JStr "a")])]
                 else JDict [("terms", JDict [("taxid", JStr "all")])])).
Proof.
  rewrite add_facet_filters_cases. eexists. split; [reflexivity |].
  split; [| split; [| split]].
  - intros k Hk.
    destruct (species_facet_filter self) as [sff |]; [| done].
    destruct (species_truthy sff); [| done].
    apply dict_get_set_ne. congruence.
  - by intros [-> | ->].
  - intros sff -> Hne.
    assert (species_truthy sff = true) as ->.
    { destruct sff as [| [| t ts]]; done. }
    eexists. apply dict_get_set_eq.
  - intros ->. cbn [species_truthy json_of_species].
    rewrite dict_get_set_eq. by destruct (species_len (species self) =? 1)%nat.
Qed.

Section ScopeFilterFacts.
Variable UserFilters_get : string → option json.

Lemma json_keys_join_filters (filters : list json) (k : string) :
  k ∈ json_keys (join_filters filters) ↔
  (k = "and" ∧ (2 ≤ length filters)%nat) ∨ ∃ c, c ∈ filters ∧ k ∈ json_keys c.
Proof.
  rewrite join_filters_cases.
  destruct filters as [| c [| c' cs]].
  - split; [by intros ?%elem_of_nil |].
    intros [[_ Hlen] | (c & Hc & _)]; [cbn in Hlen; lia | by apply elem_of_nil in Hc].
  - split.
    + intros Hk. right. exists c. split; [constructor | done].
    + intros [[_ Hlen] | (x & Hx & Hk)]; [cbn in Hlen; lia |].
      by apply list_elem_of_singleton in Hx as ->.
  - change (json_keys (JDict [("and", JList (c :: c' :: cs))]))
      with ("and" :: (flat_map json_keys (c :: c' :: cs) ++ [])).
    rewrite app_nil_r, elem_of_cons.
    split.
    + intros [-> | Hk]; [left; split; [done | cbn; lia] |]. right.
      apply list_elem_of_In, in_flat_map in Hk as (x & Hx & Hkx).
      exists x. by rewrite !list_elem_of_In.
    + intros [[-> _] | (x & Hx & Hk)]; [by left |]. right.
      apply list_elem_of_In, in_flat_map. exists x. by rewrite <- !list_elem_of_In.
Qed.

Lemma exists_clause_keys (kind f : string) :
  json_keys (JDict [(kind, JDict [("field", JStr f)])]) = [kind; "field"].
Proof. reflexivity. Qed.

Lemma scope_clauses_no_species (self : ESQueryBuilder) :
  userfilter self = None →
  species self = SpAll ∨ species self = SpIds [] →
  Forall (fun c => json_keys c = ["exists"; "field"]
                   ∨ json_keys c = ["missing"; "field"])
         (scope_clauses UserFilters_get self).
Proof.
  intros Huf Hsp. unfold scope_clauses. rewrite Huf.
  assert (∀ kind fields,
            kind = "exists" ∨ kind = "missing" →
            Forall (fun c => json_keys c = ["exists"; "field"]
                             ∨ json_keys c = ["missing"; "field"])
                   ((fun f => JDict [(kind, JDict [("field", JStr f)])])
                      <$> fields)) as Hfields.
  { intros kind fields Hkind. apply Forall_fmap, Forall_forall.
    intros f _. cbn. destruct Hkind as [-> | ->]; auto. }
  repeat apply Forall_app_2.
  - destruct Hsp as [-> | ->]; constructor.
  - destruct (entrezonly self); repeat constructor.
  - destruct (ensemblonly self); repeat constructor.
  - constructor.
  - apply Hfields. by left.
  - apply Hfields. by right.
Qed.

(** X16.  With no saved filter, the scope filter holds a [taxid] clause
    exactly when the species is a non-empty list of ids: with species
    ['all'], and with an empty species list, no clause restricts the
    taxonomy id, whatever the other conditions. *)
Theorem scope_filter_taxid (self : ESQueryBuilder) :
  userfilter self = None →
  ("taxid" ∈ json_keys (get_query_filters UserFilters_get self)
   ↔ ∃ t ts, species self = SpIds (t :: ts)).
Proof.
  intros Huf. rewrite get_query_filters_clauses, json_keys_join_filters.
  split.
  - intros [[[=] _] | (c & Hc & Hk)].
    destruct (species self) as [| [| t ts]] eqn:Hsp; [| | by eauto]; exfalso.
    + pose proof (scope_clauses_no_species self Huf (or_introl Hsp)) as Hall.
      rewrite Forall_forall in Hall.
      destruct (Hall c Hc) as [Hkeys | Hkeys]; rewrite Hkeys in Hk;
        revert Hk; rewrite !elem_of_cons, elem_of_nil;
        by intros [[=] | [[=] | []]].
    + pose proof (scope_clauses_no_species self Huf (or_intror Hsp)) as Hall.
      rewrite Forall_forall in Hall.
      destruct (Hall c Hc) as [Hkeys | Hkeys]; rewrite Hkeys in Hk;
        revert Hk; rewrite !elem_of_cons, elem_of_nil;
        by intros [[=] | [[=] | []]].
  - intros (t & ts & Hsp). right. unfold scope_clauses. rewrite Hsp.
    destruct ts as [| t' ts]; eexists; (split; [by apply elem_of_app; left; constructor |]);
      cbn; rewrite !elem_of_cons; auto.
Qed.
End ScopeFilterFacts.

(** X17.  [dis_max_query] raises exactly when the query, once its double
    quotes and backslashes are removed, still holds a control character;
    the error is then the [ValueError] of the JSON decoder, which the
    builder does not turn into a [QueryError]. *)
Theorem dis_max_query_errors (q : string) (e : exn) :
  dis_max_query q = Raise e
  ↔ PyStr.existsb PyStr.iscntrl (unquote q) = true ∧ e = ValueError.
Proof.
  rewrite dis_max_query_cases.
  destruct (PyStr.existsb PyStr.iscntrl (unquote q)).
  - split; [by intros [= <-] | by intros [_ ->]].
  - split; [by destruct (is_int _) | by intros [[=] _]].
Qed.

Section QueryFacts.
Variable parse_facets_option : dict → dict.
Variable SOURCE_TRANSLATORS : list (string * string).
Variable re_sub : string → string → string → string.
Variable generate_query : ESQueryBuilder → string → result json.
Variable add_query_filters : ESQueryBuilder → json → json.

(** X18.  On a query string that is not an interval, [query] leaves the
    builder as it was and passes on the error of [generate_query], if any.
    Otherwise it returns a dict whose [query] entry is the score envelope
    around the generated query and whose [filter] entry is the post-filter
    of the species facet filter, absent without one, provided no option is
    named [query] or [filter]. *)
Theorem query_relevance_path (self : ESQueryBuilder) (q : string) :
  let q' := _translate_datasource SOURCE_TRANSLATORS re_sub q in
  let run := query SOURCE_TRANSLATORS re_sub generate_query add_query_filters in
  _parse_interval_query q' = None →
  (∀ e, generate_query self q' = Raise e → run self q = Raise e)
  ∧ (∀ generated, generate_query self q' = Ok generated →
       ∃ _q, run self q = Ok (self, _q)
             ∧ (dict_get "query" (_query_options self) = None →
                dict_get "query" _q
                = Some (add_species_custom_filters_score generated))
             ∧ (dict_get "filter" (_query_options self) = None →
                (species_facet_filter self = None
                 ∨ species_facet_filter self = Some (SpIds []) →
                 dict_get "filter" _q = None)
                ∧ (∀ sff, species_facet_filter self = Some sff →
                     sff ≠ SpIds [] →
                     ∃ clause, dict_get "filter" _q = Some clause))).
Proof.
  intros q' run Hnone. subst run. unfold query. fold q'. rewrite Hnone.
  split.
  - by intros e ->.
  - intros generated ->. cbn [mbind result_bind rbind].
    rewrite add_facet_filters_cases. cbn [mbind result_bind rbind].
    eexists. split; [reflexivity |].
    assert (∀ k d, dict_get k (_query_options self) = None →
              dict_get k (if bool_decide (_query_options self ≠ [])
                          then dict_update d (_query_options self) else d)
              = dict_get k d) as Hopts.
    { intros k d Hk. case_bool_decide; [| done].
      apply dict_get_update_absent. by apply dict_has_get. }
    split.
    + intros Hq. rewrite (Hopts _ _ Hq).
      destruct (species_facet_filter self) as [sff |]; [| done].
      destruct (species_truthy sff); [| done].
      by rewrite dict_get_set_ne.
    + intros Hf. rewrite (Hopts _ _ Hf). split.
      * by intros [-> | ->].
      * intros sff -> Hne.
        assert (species_truthy sff = true) as ->.
        { by destruct sff as [| [| t ts]]. }
        eexists. apply dict_get_set_eq.
Qed.

(** X19.  A builder made without a [species] option has species ['all'],
    so [_build_query] refuses every interval query with a [QueryError];
    made with a non-empty list of ids, it compiles the interval for the
    first id, whenever start and end hold a digit. *)
Theorem build_query_interval_species (q : string) (kw : kwargs) (d : interval) :
  let run :=
    _build_query parse_facets_option SOURCE_TRANSLATORS re_sub generate_query
      add_query_filters in
  _parse_interval_query (_translate_datasource SOURCE_TRANSLATORS re_sub q)
    = Some d →
  (kw_species kw = None ∨ kw_species kw = Some SpAll →
     run q kw = Raise QueryError)
  ∧ (∀ t rest, kw_species kw = Some (SpIds (t :: rest)) →
       PyStr.existsb PyStr.isdigit (gstart d) = true →
       PyStr.existsb PyStr.isdigit (gend d) = true →
       ∃ esqb _q, run q kw = Ok (esqb, _q) ∧ species esqb = SpIds [t]).
Proof.
  intros run Hd. subst run. unfold _build_query, query. rewrite Hd.
  destruct (parse_interval_groups _ _ Hd) as [Hstart Hend].
  change (species (ESQueryBuilder_init parse_facets_option kw))
    with (default SpAll (kw_species kw)).
  split.
  - by intros [-> | ->].
  - intros t rest -> Hs He. cbn [default].
    destruct (position_normalises _ Hstart Hs) as [s Hs'].
    destruct (position_normalises _ Hend He) as [e He'].
    unfold build_genomic_pos_query. rewrite Hs', He'.
    cbn [mbind result_bind rbind]. eexists _, _. split; reflexivity.
Qed.
End QueryFacts.

Section ExistsOptionFacts.
Variable parse_facets_option : dict → dict.
Variable UserFilters_get : string → option json.

Lemma split_length (s : string) :
  length (PyStr.split PyStr.comma s)
  = S (String.length (PyStr.filter (fun c => Ascii.eqb c PyStr.comma) s)).
Proof.
  induction s as [| c s IH]; [done |].
  cbn [PyStr.split PyStr.filter].
  destruct (Ascii.eqb c PyStr.comma); cbn [length String.length].
  - by rewrite IH.
  - destruct (PyStr.split PyStr.comma s) as [| w ws]; [done |].
    exact IH.
Qed.

(** X20.  The [exists] option is cut at every comma and each piece, empty
    ones included, becomes an [exists] clause: a builder made with this
    option alone has one clause more than the option has commas, and its
    scope filter is that clause bare, or all of them under ["and"].  An
    empty option gives no filter. *)
Theorem init_exists_clauses (kw : kwargs) (s : string) :
  kw_species kw = None → kw_entrezonly kw = false → kw_ensemblonly kw = false →
  kw_userfilter kw = None → kw_missing kw = None →
  kw_exists kw = Some s →
  let self := ESQueryBuilder_init parse_facets_option kw in
  let clauses :=
    (fun f => JDict [("exists", JDict [("field", JStr f)])])
      <$> PyStr.split PyStr.comma s in
  (s = "" → get_query_filters UserFilters_get self = JList [])
  ∧ (s ≠ "" →
     scope_clauses UserFilters_get self = clauses
     ∧ length clauses
       = S (String.length (PyStr.filter (fun c => Ascii.eqb c PyStr.comma) s))
     ∧ get_query_filters UserFilters_get self =
         match clauses with
         | [clause] => clause
         | _ => JDict [("and", JList clauses)]
         end).
Proof.
  intros Hsp He1 He2 Huf Hmiss Hex self clauses.
  assert (species self = SpAll) as Hsp' by (cbn; by rewrite Hsp).
  split.
  - intros ->. rewrite get_query_filters_clauses. unfold scope_clauses.
    rewrite Hsp'. cbn. by rewrite He1, He2, Huf, Hmiss, Hex.
  - intros Hne.
    assert (scope_clauses UserFilters_get self = clauses) as Hclauses.
    { unfold scope_clauses. rewrite Hsp'. cbn [self ESQueryBuilder_init
        entrezonly ensemblonly userfilter existsfilter missingfilter].
      rewrite He1, He2, Huf, Hmiss, Hex.
      destruct s as [| c s]; [done |].
      cbn [split_option default omap list_omap fmap list_fmap app].
      by rewrite app_nil_r. }
    split; [exact Hclauses |].
    split; [subst clauses; by rewrite length_fmap, split_length |].
    rewrite get_query_filters_clauses, Hclauses, join_filters_cases.
    subst clauses.
    destruct (PyStr.split PyStr.comma s) as [| w [| w' ws]] eqn:Hsplit;
      [| done | done].
    pose proof (split_length s) as Hlen. rewrite Hsplit in Hlen. done.
Qed.
End ExistsOptionFacts.

(** * Concrete requests, continued *)

Lemma cleaned_species_idempotent_witness :
  _cleaned_species (ESQuery_init Sample.index_all) (PStr "Human,rat") false
    = Ok (PList [AInt 9606; AInt 10116])
  ∧ _cleaned_species (ESQuery_init Sample.index_all)
      (PList [AInt 9606; AInt 10116]) true
    = Ok (PList [AInt 9606; AInt 10116]).
Proof.
  assert (_cleaned_species (ESQuery_init Sample.index_all) (PStr "Human,rat") false
          = Ok (PList [AInt 9606; AInt 10116])) as Hres by reflexivity.
  split; [exact Hres |].
  exact (cleaned_species_idempotent _ _ _ _ Hres).
Defined.

Lemma names_route_to_tier_1_witness :
  _tier_1_species (ESQuery_init Sample.index_all) = list_to_set tier_1_ids
  ∧ Forall (fun a => is_int a = false)
      (selector_tokens (ESQuery_init Sample.index_all) (PStr "human,unicorn"))
  ∧ _cleaned_species (ESQuery_init Sample.index_all) (PStr "human,unicorn") false
    = Ok (PList [AInt 9606])
  ∧ ∃ ids : list Z,
      [AInt 9606] = AInt <$> ids
      ∧ _index (_set_index Sample.index_all Sample.index_tier1
                  (ESQuery_init Sample.index_all) (SpIds ids))
        = Sample.index_tier1.
Proof.
  assert (_tier_1_species (ESQuery_init Sample.index_all)
          = list_to_set tier_1_ids) as Htier by reflexivity.
  assert (Forall (fun a => is_int a = false)
            (selector_tokens (ESQuery_init Sample.index_all)
               (PStr "human,unicorn"))) as Hnames.
  { repeat constructor. }
  assert (_cleaned_species (ESQuery_init Sample.index_all)
            (PStr "human,unicorn") false = Ok (PList [AInt 9606])) as Hres
    by reflexivity.
  split; [exact Htier |]. split; [exact Hnames |]. split; [exact Hres |].
  destruct (names_route_to_tier_1 Sample.index_all Sample.index_tier1
              _ _ _ _ Htier Hnames Hres) as (ids & Hids & _ & Hindex).
  exists ids. split; [exact Hids | exact Hindex].
Defined.

Lemma parse_interval_sound_witness :
  _parse_interval_query "hg19.chr7:100-200"
    = Some (mkInterval "7" "100" "200" (Some "hg19"))
  ∧ ∃ pre post,
      "hg19.chr7:100-200"
      = (pre ++ "chr" ++ "7" ++ ":" ++ "100" ++ "-" ++ "200" ++ post)%string.
Proof.
  assert (_parse_interval_query "hg19.chr7:100-200"
          = Some (mkInterval "7" "100" "200" (Some "hg19"))) as Hd
    by reflexivity.
  split; [exact Hd |].
  exact (proj1 (parse_interval_sound _ _ Hd)).
Defined.

Lemma parse_interval_formatted_witness :
  _parse_interval_query ("chr" ++ "X" ++ ":" ++ "1,000" ++ "-" ++ "2,000" ++ "")%string
    = Some (mkInterval "X" "1,000" "2,000" None).
Proof.
  exact (proj1 (parse_interval_formatted "X" "1,000" "2,000" ""
                  eq_refl eq_refl eq_refl eq_refl eq_refl eq_refl I)).
Defined.


Lemma build_id_query_int_other_fields_witness :
  is_int (AInt 1017) = true
  ∧ build_id_query Sample.add_filters (Sample.builder SpAll) (AInt 1017)
      (ScSeq ["symbol"; "alias"])
    = Ok [("query", add_species_custom_filters_score _nohits_query)].
Proof.
  split; [reflexivity |].
  assert ("symbol" ≠ "entrezgene") as H1 by discriminate.
  assert ("symbol" ≠ "retired") as H2 by discriminate.
  exact (proj1 (build_id_query_int_other_fields Sample.add_filters
                  (Sample.builder SpAll) (AInt 1017) ["symbol"; "alias"]
                  "symbol" eq_refl eq_refl eq_refl H1 H2)).
Defined.

Lemma build_id_query_str_fields_witness :
  is_int (AStr "CDK2") = false
  ∧ NoDup ["symbol"; "entrezgene"; "alias"]
  ∧ build_id_query Sample.add_filters (Sample.builder SpAll) (AStr "CDK2")
      (ScSeq ["symbol"; "entrezgene"; "alias"])
    = Ok [("query",
           add_species_custom_filters_score
             (JDict [("multi_match", JDict [
                ("query", JStr "CDK2");
                ("fields", JList [JStr "symbol"; JStr "alias"]);
                ("operator", JStr "and")])]))].
Proof.
  assert (NoDup ["symbol"; "entrezgene"; "alias"]) as Hnodup.
  { apply NoDup_ListNoDup.
    repeat (apply List.NoDup_cons; [cbn; intuition discriminate |]).
    apply List.NoDup_nil. }
  split; [reflexivity |]. split; [exact Hnodup |].
  exact (build_id_query_str_fields Sample.add_filters (Sample.builder SpAll)
           (AStr "CDK2") ["symbol"; "entrezgene"; "alias"] eq_refl Hnodup).
Defined.

Lemma build_id_query_entry_witness :
  ScStr "symbol" ≠ ScOther
  ∧ ∃ _q : dict,
      build_id_query Sample.add_filters
        (ESQueryBuilder_init Sample.parse_facets (Sample.kw None None))
        (AStr "CDK2") (ScStr "symbol") = Ok _q
      ∧ dict_get "filter" _q = None.
Proof.
  assert (ScStr "symbol" ≠ ScOther) as Hscopes by discriminate.
  split; [exact Hscopes |].
  destruct (build_id_query_entry Sample.parse_facets Sample.add_filters
              (Sample.kw None None) (AStr "CDK2") (ScStr "symbol") Hscopes)
    as (_q & inner & Hq & _ & Hfilter).
  exists _q. split; [exact Hq | exact Hfilter].
Defined.

Lemma scope_filter_taxid_witness :
  userfilter (Sample.builder (SpIds [9606; 10090])) = None
  ∧ "taxid" ∈ json_keys
      (get_query_filters Sample.saved (Sample.builder (SpIds [9606; 10090]))).
Proof.
  split; [reflexivity |].
  apply (scope_filter_taxid Sample.saved (Sample.builder (SpIds [9606; 10090]))
           eq_refl).
  by exists 9606, [10090].
Defined.

Lemma query_relevance_path_witness :
  _parse_interval_query
    (_translate_datasource Sample.translators Sample.sub "cdk2") = None
  ∧ ∃ _q : dict,
      query Sample.translators Sample.sub Sample.generate Sample.add_filters
        (Sample.builder (SpIds [9606])) "cdk2"
      = Ok (Sample.builder (SpIds [9606]), _q).
Proof.
  assert (_parse_interval_query
            (_translate_datasource Sample.translators Sample.sub "cdk2") = None)
    as Hnone by reflexivity.
  split; [exact Hnone |].
  destruct (query_relevance_path Sample.translators Sample.sub Sample.generate
              Sample.add_filters (Sample.builder (SpIds [9606])) "cdk2" Hnone)
    as [_ Hok].
  destruct (Hok _ eq_refl) as (_q & Hq & _).
  exists _q. exact Hq.
Defined.

Lemma build_query_interval_species_witness :
  _parse_interval_query
    (_translate_datasource Sample.translators Sample.sub "chr1:1,000-2,000")
    = Some (mkInterval "1" "1,000" "2,000" None)
  ∧ _build_query Sample.parse_facets Sample.translators Sample.sub
      Sample.generate Sample.add_filters "chr1:1,000-2,000" (Sample.kw None None)
    = Raise QueryError.
Proof.
  assert (_parse_interval_query
            (_translate_datasource Sample.translators Sample.sub "chr1:1,000-2,000")
          = Some (mkInterval "1" "1,000" "2,000" None)) as Hd by reflexivity.
  split; [exact Hd |].
  destruct (build_query_interval_species Sample.parse_facets Sample.translators
              Sample.sub Sample.generate Sample.add_filters
              "chr1:1,000-2,000" (Sample.kw None None) _ Hd) as [Hall _].
  apply Hall. by left.
Defined.

Lemma init_exists_clauses_witness :
  kw_exists (Sample.kw None (Some "a,,b")) = Some "a,,b"
  ∧ get_query_filters Sample.saved
      (ESQueryBuilder_init Sample.parse_facets (Sample.kw None (Some "a,,b")))
    = JDict [("and", JList [
        JDict [("exists", JDict [("field", JStr "a")])];
        JDict [("exists", JDict [("field", JStr "")])];
        JDict [("exists", JDict [("field", JStr "b")])] ])].
Proof.
  split; [reflexivity |].
  assert ("a,,b" ≠ "") as Hne by discriminate.
  destruct (init_exists_clauses Sample.parse_facets Sample.saved
              (Sample.kw None (Some "a,,b")) "a,,b"
              eq_refl eq_refl eq_refl eq_refl eq_refl eq_refl) as [_ Hsome].
  exact (proj2 (proj2 (Hsome Hne))).
Defined.
